(** * OUTlook: the CSV-to-MX filtering pipeline of [FileUpload]

    A shallow embedding of the logic of the [FileUpload] component found in
    [src/app/page.tsx] (two variants of the same component, lines 32-223 and
    224-453): [normalizeDomain], the detection of the domain column, the
    row-by-row MX lookup loop of [processCSV] and [downloadCSV].

    Conventions of the model.
    - A JavaScript string is a sequence of code units.  Code units are the
      256 values of [ascii], read as Latin-1: [toLowerCase] and [trim] below
      are the ECMAScript functions restricted to that range.
    - A JavaScript object is the list of its own properties in the order
      [Object.keys] reports them; a property value is [string | undefined].
    - The network ([axios.get]) is an oracle which answers a URL given the
      list of the requests issued before; every request is logged.
    - React state is a record, and [processCSV] a function on it. *)

From Stdlib Require Import String Ascii List ZArith Lia Bool.
Import ListNotations.
Open Scope string_scope.

(** ** The JavaScript primitives the component calls *)

Module JS.

(** [WhiteSpace] and [LineTerminator] code units below 256
    (TAB, LF, VT, FF, CR, SP, NBSP): what [String.prototype.trim] strips. *)
Definition isWhiteSpace (c : ascii) : bool :=
  let n := nat_of_ascii c in
  ((9 <=? n) && (n <=? 13) || (n =? 32) || (n =? 160))%nat.

(** Lower-case mapping of one Latin-1 code unit: A-Z, and U+00C0-U+00DE
    without the multiplication sign U+00D7, move up by 32. *)
Definition lowerChar (c : ascii) : ascii :=
  let n := nat_of_ascii c in
  if ((65 <=? n) && (n <=? 90)
      || (192 <=? n) && (n <=? 222) && negb (n =? 215))%nat
  then ascii_of_nat (n + 32)
  else c.

(** [s.toLowerCase()] *)
Fixpoint toLowerCase (s : string) : string :=
  match s with
  | EmptyString => EmptyString
  | String c s' => String (lowerChar c) (toLowerCase s')
  end.

Fixpoint trimStart (s : string) : string :=
  match s with
  | EmptyString => EmptyString
  | String c s' => if isWhiteSpace c then trimStart s' else s
  end.

Fixpoint trimEnd (s : string) : string :=
  match s with
  | EmptyString => EmptyString
  | String c s' =>
      match trimEnd s' with
      | EmptyString => if isWhiteSpace c then EmptyString else String c EmptyString
      | r => String c r
      end
  end.

(** [s.trim()] *)
Definition trim (s : string) : string := trimEnd (trimStart s).

(** [s.startsWith(p)] *)
Fixpoint startsWith (p s : string) : bool :=
  match p, s with
  | EmptyString, _ => true
  | String _ _, EmptyString => false
  | String a p', String b s' => Ascii.eqb a b && startsWith p' s'
  end.

(** [s.includes(p)]: [p] occurs in [s] as a substring, compared code unit
    by code unit (case-sensitive). *)
Fixpoint includes (p s : string) : bool :=
  startsWith p s ||
  match s with
  | EmptyString => false
  | String _ s' => includes p s'
  end.

(** The regular expression [/https?:\/\/|www\./] tried at the start of
    [s]: the length of the match, if there is one.  The first alternative
    matches exactly the literals [https://] and [http://], the second the
    literal [www.]. *)
Definition matchLength (s : string) : option nat :=
  if startsWith "https://" s then Some 8%nat
  else if startsWith "http://" s then Some 7%nat
  else if startsWith "www." s then Some 4%nat
  else None.

(** [s.replace(/https?:\/\/|www\./g, "")]: one scan from left to right; at
    each position where the expression matches, the match is dropped and
    the scan resumes behind it, otherwise the code unit is copied.  [skip]
    counts the code units of the current match still to be dropped. *)
Fixpoint removeMatches (skip : nat) (s : string) : string :=
  match s with
  | EmptyString => EmptyString
  | String c s' =>
      match skip with
      | S k => removeMatches k s'
      | O =>
          match matchLength s with
          | Some (S k) => removeMatches k s'
          | _ => String c (removeMatches 0 s')
          end
      end
  end.

(** [s.split("/")[0]]: the code units before the first slash. *)
Fixpoint beforeSlash (s : string) : string :=
  match s with
  | EmptyString => EmptyString
  | String c s' =>
      if Ascii.eqb c "/" then EmptyString else String c (beforeSlash s')
  end.

(** Truthiness of a [string | undefined]: [undefined] and [""] are falsy. *)
Definition truthy (v : option string) : bool :=
  match v with
  | None => false
  | Some EmptyString => false
  | Some _ => true
  end.

(** [names.includes(x)] on an array of strings. *)
Definition Array_includes (names : list string) (x : string) : bool :=
  existsb (String.eqb x) names.

End JS.

(** ** Objects with string keys *)

Module Obj.

(** A [CSVRow]: [{ [key: string]: string | undefined }]. *)
Definition t := list (string * option string).

(** [Object.keys(o)] *)
Definition keys (o : t) : list string := map fst o.

(** [o[k]]: [undefined] when the property is missing. *)
Fixpoint get (o : t) (k : string) : option string :=
  match o with
  | [] => None
  | (k', v) :: o' => if String.eqb k' k then v else get o' k
  end.

(** [{ ...o, k: v }]: an existing property keeps its place and takes the
    new value, a new one comes last. *)
Fixpoint set (o : t) (k : string) (v : option string) : t :=
  match o with
  | [] => [(k, v)]
  | (k', v') :: o' =>
      if String.eqb k' k then (k', v) :: o' else (k', v') :: set o' k v
  end.

End Obj.

Definition CSVRow := Obj.t.

(** ** The parts of PapaParse the component relies on *)

Module Papa.

(** [ParseResult<CSVRow>]: the parsed rows and the header ([meta.fields]). *)
Record ParseResult := {
  data : list CSVRow;
  meta_fields : list string
}.

(** [Papa.unparse(rows)] on an array of objects, as a table of cells: the
    columns are the keys of the first object, the first line is that
    header, and each row gives one cell per column (empty for
    [undefined]).  An empty array unparses to the empty text. *)
Definition cell (r : CSVRow) (f : string) : string :=
  match Obj.get r f with
  | Some v => v
  | None => EmptyString
  end.

Definition unparse (rows : list CSVRow) : list (list string) :=
  match rows with
  | [] => []
  | r0 :: _ =>
      let fields := Obj.keys r0 in
      fields :: map (fun r => map (cell r) fields) rows
  end.

End Papa.

(** ** The component *)

(** [interface MXRecordResponse { Answer?: Array<{ data: string }> }] *)
Record MXAnswer := { data : string }.
Record MXRecordResponse := { Answer : option (list MXAnswer) }.

(** What [await axios.get<MXRecordResponse>(url)] does: the promise is
    rejected (network error, timeout, error status, unreadable body: the
    [await] throws inside the [try]) or fulfilled with [response.data]. *)
Inductive AxiosResult :=
| Rejected
| Fulfilled (response_data : MXRecordResponse).

(** The DNS-over-HTTPS service: the answer to a URL, given the requests that
    were issued before it. *)
Definition Network := list string -> string -> AxiosResult.

(** The two variants differ in the list of column names and in the message. *)
Record Variant := {
  domainColumnNames : list string;
  noColumnMessage : string
}.

(** Lines 87-91 and 93-94. *)
Definition variant1 : Variant := {|
  domainColumnNames :=
    ["domain"; "website"; "url"; "Website"; "Domain"; "Company website";
     "company domain"];
  noColumnMessage := "No domain/website column found in the CSV."
|}.

(** Lines 280-314 and 321-325. *)
Definition names2 : list string :=
  ["domain"; "website"; "url"; "web address"; "company website";
   "company domain"; "business website"; "business domain"; "Domain";
   "Website"; "URL"; "Web Address"; "Company Website"; "Company Domain";
   "web_site"; "web-site"; "web.address"; "company_website";
   "company.website"; "companydomain"; "businesswebsite"; "homepage";
   "landing_page"; "primary_url"; "root_domain"; "site_url"; "website_url";
   "corporate_site"; "corporate_url"; "organization_url";
   "organization_site"; "company_url"; "business_url"].

Definition variant2 : Variant := {|
  domainColumnNames := names2;
  noColumnMessage :=
    "No domain-related column found. Please ensure your file includes one of the following: "
    ++ String.concat ", " names2
|}.

(** [normalizeDomain] (lines 57-61, 249-253). *)
Definition normalizeDomain (domain : option string) : option string :=
  match domain with
  | None | Some EmptyString => None          (* if (!domain) return undefined *)
  | Some d =>
      let url := JS.toLowerCase (JS.trim d) in
      Some (JS.beforeSlash (JS.removeMatches 0 url))
  end.

(** [Object.keys(data[0] || {}).find(col => names.includes(col.toLowerCase()))]
    (lines 87-91, 317-319), on the keys. *)
Definition findDomainColumn (V : Variant) (keys : list string) : option string :=
  find (fun col => JS.Array_includes (domainColumnNames V) (JS.toLowerCase col)) keys.

Definition firstRowKeys (rows : list CSVRow) : list string :=
  match rows with
  | [] => []
  | r0 :: _ => Obj.keys r0
  end.

(** [data.map(row => ({ ...row, normalizedDomain: normalizeDomain(row[domainColumn]) }))]
    (lines 99-102, 330-333). *)
Definition normalizeRow (domainColumn : string) (row : CSVRow) : CSVRow :=
  Obj.set row "normalizedDomain" (normalizeDomain (Obj.get row domainColumn)).

Definition normalizedData (domainColumn : string) (rows : list CSVRow) : list CSVRow :=
  map (normalizeRow domainColumn) rows.

(** The locals of the loop, with the log of the requests sent and of the
    domains reported by [console.error]. *)
Record Loop := {
  filteredData : list CSVRow;
  filteredRecords : Z;
  requests : list string;
  consoleErrors : list string
}.

Definition loopStart : Loop := {|
  filteredData := [];
  filteredRecords := 0%Z;
  requests := [];
  consoleErrors := []
|}.

Definition resolveURL (domain : string) : string :=
  "https://dns.google/resolve?name=" ++ domain ++ "&type=MX".

(** [response.data.Answer?.map(record => record.data) || []] *)
Definition mxRecords (r : MXRecordResponse) : list string :=
  match Answer r with
  | Some answers => map data answers
  | None => []
  end.

(** [mxRecords.some(record => record.includes(".outlook"))] *)
Definition hasOutlook (records : list string) : bool :=
  existsb (JS.includes ".outlook") records.

(** One turn of [for (const row of normalizedData)] (lines 107-129, 338-360). *)
Definition loopBody (net : Network) (st : Loop) (row : CSVRow) : Loop :=
  match Obj.get row "normalizedDomain" with
  | None | Some EmptyString => st            (* if (!row.normalizedDomain) continue *)
  | Some domain =>
      let url := resolveURL domain in
      let sent := (requests st ++ [url])%list in
      match net (requests st) url with
      | Fulfilled response_data =>
          if hasOutlook (mxRecords response_data)
          then {| filteredData := filteredData st;
                  filteredRecords := (filteredRecords st + 1)%Z;
                  requests := sent;
                  consoleErrors := consoleErrors st |}
          else {| filteredData := (filteredData st ++ [row])%list;
                  filteredRecords := filteredRecords st;
                  requests := sent;
                  consoleErrors := consoleErrors st |}
      | Rejected =>                          (* catch: console.error only *)
          {| filteredData := filteredData st;
             filteredRecords := filteredRecords st;
             requests := sent;
             consoleErrors := (consoleErrors st ++ [domain])%list |}
      end
  end.

Definition runLoop (net : Network) (st : Loop) (rows : list CSVRow) : Loop :=
  fold_left (loopBody net) rows st.

(** The [useState] cells the pipeline writes. *)
Record State := {
  processedData : option (list CSVRow);
  loading : bool;
  error : option string;
  filteredCount : Z;
  showConfetti : bool
}.

(** [handleFileUpload] (lines 63-69): the state after a file was chosen. *)
Definition afterUpload (st : State) : State := {|
  processedData := None;
  loading := loading st;
  error := None;
  filteredCount := 0%Z;
  showConfetti := false
|}.

(** The [complete] callback of [Papa.parse] in [processCSV] (lines 84-135,
    276-366), entered after [setLoading(true); setError(null)].  It returns
    the new state and the requests sent to the network. *)
Definition complete (V : Variant) (net : Network) (results : Papa.ParseResult)
    (st : State) : State * list string :=
  let rows := Papa.data results in
  match findDomainColumn V (firstRowKeys rows) with
  | None | Some EmptyString =>               (* if (!domainColumn) ... return *)
      ({| processedData := processedData st;
          loading := false;
          error := Some (noColumnMessage V);
          filteredCount := filteredCount st;
          showConfetti := showConfetti st |}, [])
  | Some domainColumn =>
      let out := runLoop net loopStart (normalizedData domainColumn rows) in
      ({| processedData := Some (filteredData out);
          loading := false;
          error := None;
          filteredCount := filteredRecords out;
          showConfetti := true |}, requests out)
  end.

(** [downloadCSV] (lines 148-154, 378-384): the table saved as
    [filtered_data.csv], if anything is saved. *)
Definition downloadCSV (st : State) : option (list (list string)) :=
  match processedData st with
  | None => None
  | Some rows => Some (Papa.unparse rows)
  end.

(** The header line of the file [downloadCSV] saves ([[]] when nothing is
    saved or the file is empty). *)
Definition exportedColumns (st : State) : list string :=
  match downloadCSV st with
  | Some (header :: _) => header
  | _ => []
  end.

(** ** The normalizer as the specification words it

    "strips a leading scheme ([http://] or [https://]) and a leading [www.]
    (only at the start, nowhere else), then returns the substring before the
    first [/]". *)
Definition stripLeading (p s : string) : string :=
  if JS.startsWith p s then String.substring (String.length p) (String.length s) s
  else s.

Definition stripLeadingScheme (s : string) : string :=
  if JS.startsWith "https://" s then stripLeading "https://" s
  else stripLeading "http://" s.

Definition normalizeLeadingOnly (domain : option string) : option string :=
  match domain with
  | None => None
  | Some d =>
      Some (JS.beforeSlash
              (stripLeading "www." (stripLeadingScheme (JS.toLowerCase (JS.trim d)))))
  end.

(** ** What a global replacement by the empty string means

    The texts the expression [/https?:\/\/|www\./] matches, and the relation
    between a string and the result of deleting, from left to right, every
    match found by the scan. *)
Definition patterns : list string := ["https://"; "http://"; "www."].

Inductive Removed : string -> string -> Prop :=
| Removed_end : Removed "" ""
| Removed_match p s r :
    In p patterns -> Removed s r -> Removed (p ++ s) r
| Removed_copy c s r :
    (forall p, In p patterns -> JS.startsWith p (String c s) = false) ->
    Removed s r -> Removed (String c s) (String c r).

(** No match of the expression anywhere in [s]. *)
Definition matchFree (s : string) : Prop :=
  forall p, In p patterns -> JS.includes p s = false.

(** Shapes used to say what [trim] leaves: all code units are white space;
    the first one is; the last one is. *)
Fixpoint allWhite (s : string) : bool :=
  match s with
  | EmptyString => true
  | String c s' => JS.isWhiteSpace c && allWhite s'
  end.

Definition headWhite (s : string) : bool :=
  match s with
  | EmptyString => false
  | String c _ => JS.isWhiteSpace c
  end.

Fixpoint lastWhite (s : string) : bool :=
  match s with
  | EmptyString => false
  | String c EmptyString => JS.isWhiteSpace c
  | String _ s' => lastWhite s'
  end.

(** ** Vocabulary for the statements about the loop *)

(** The row passes [if (!row.normalizedDomain) continue], and the URL then
    requested for it. *)
Definition lookedUp (row : CSVRow) : bool :=
  JS.truthy (Obj.get row "normalizedDomain").

Definition lookupURL (row : CSVRow) : string :=
  match Obj.get row "normalizedDomain" with
  | Some domain => resolveURL domain
  | None => resolveURL ""
  end.

(** A fulfilled request carrying the given record strings. *)
Definition answer (records : list string) : AxiosResult :=
  Fulfilled {| Answer := Some (map Build_MXAnswer records) |}.

(** The test [find] applies to a key. *)
Definition isDomainName (V : Variant) (col : string) : bool :=
  JS.Array_includes (domainColumnNames V) (JS.toLowerCase col).

(** The initial values of the [useState] cells (lines 50-55, 242-247). *)
Definition idle : State := {|
  processedData := None;
  loading := false;
  error := None;
  filteredCount := 0%Z;
  showConfetti := false
|}.

(** The state [complete] leaves when it gives up for want of a column. *)
Definition aborted (V : Variant) (st : State) : State := {|
  processedData := processedData st;
  loading := false;
  error := Some (noColumnMessage V);
  filteredCount := filteredCount st;
  showConfetti := showConfetti st
|}.

(** ** The rest of the component: upload, [processCSV], the view *)

(** The [File] picked in the input: the component reads its name, PapaParse
    its text. *)
Record File := {
  fileName : string;
  fileText : string
}.

(** What [Papa.parse(file, { header: true, skipEmptyLines: true, complete,
    error })] ends in: the [complete] callback is called with the result,
    the [error] callback is called, or the call itself throws. *)
Inductive ParseOutcome :=
| Completes (results : Papa.ParseResult)
| Fails
| Throws.

Definition Parser := File -> ParseOutcome.

(** The component: the [file] cell and the cells of [State]. *)
Record Component := {
  file : option File;
  cells : State
}.

(** [handleFileUpload] (lines 63-69, 255-261), on [e.target.files?.[0] || null]. *)
Definition handleFileUpload (chosen : option File) (c : Component) : Component := {|
  file := chosen;
  cells := afterUpload (cells c)
|}.

(** What a call of [processCSV] leaves: the component, the texts shown by
    [alert] and the requests sent. *)
Record Run := {
  after : Component;
  alerts : list string;
  sent : list string
}.

(** [setError(msg); setLoading(false)] in the [error] callback and in the
    [catch] of [processCSV]. *)
Definition failed (msg : string) (st : State) : State := {|
  processedData := processedData st;
  loading := false;
  error := Some msg;
  filteredCount := filteredCount st;
  showConfetti := showConfetti st
|}.

(** [processCSV] (lines 71-146, 263-376), for a call that runs to its end:
    the parser calls one of its callbacks or throws, every request is
    settled (fulfilled or rejected), and no other event (an upload, another
    click) arrives before the last [setLoading(false)]. *)
Definition processCSV (V : Variant) (parse : Parser) (net : Network)
    (c : Component) : Run :=
  match file c with
  | None =>                                  (* if (!file) { alert(...); return; } *)
      {| after := c; alerts := ["Please upload a file first!"]; sent := [] |}
  | Some f =>
      let st := {| processedData := processedData (cells c);
                   loading := true;          (* setLoading(true) *)
                   error := None;            (* setError(null) *)
                   filteredCount := filteredCount (cells c);
                   showConfetti := showConfetti (cells c) |} in
      match parse f with
      | Completes results =>
          {| after := {| file := file c;
                         cells := fst (complete V net results st) |};
             alerts := [];
             sent := snd (complete V net results st) |}
      | Fails =>
          {| after := {| file := file c;
                         cells := failed "Error parsing the CSV file." st |};
             alerts := []; sent := [] |}
      | Throws =>
          {| after := {| file := file c;
                         cells := failed "An error occurred while processing the file." st |};
             alerts := []; sent := [] |}
      end
  end.

(** The conditions of the view (lines 181, 201, 208; 411, 431, 438):
    [disabled={!file || loading}], [!loading && filteredCount > 0] and
    [processedData && ...] (an array is truthy, also when empty). *)
Definition processDisabled (c : Component) : bool :=
  match file c with
  | None => true
  | Some _ => loading (cells c)
  end.

Definition showsSaved (st : State) : bool :=
  negb (loading st) && (0 <? filteredCount st)%Z.

Definition showsDownload (st : State) : bool :=
  match processedData st with
  | None => false
  | Some _ => true
  end.

(** ** More vocabulary for the loop *)

(** What a turn of the loop does with a row, given the requests sent so
    far: it skips the row, its lookup is rejected, the row is counted as
    removed, or it is kept. *)
Inductive Verdict := Skipped | Failed | Excluded | Kept.

Definition verdict (net : Network) (history : list string) (row : CSVRow) : Verdict :=
  if lookedUp row then
    match net history (lookupURL row) with
    | Rejected => Failed
    | Fulfilled response_data =>
        if hasOutlook (mxRecords response_data) then Excluded else Kept
    end
  else Skipped.

Definition isKept (v : Verdict) : bool :=
  match v with Kept => true | _ => false end.

Definition isExcluded (v : Verdict) : bool :=
  match v with Excluded => true | _ => false end.

Definition isFailed (v : Verdict) : bool :=
  match v with Failed => true | _ => false end.

(** The domain a looked-up row is resolved under. *)
Definition domainOf (row : CSVRow) : string :=
  match Obj.get row "normalizedDomain" with
  | Some domain => domain
  | None => ""
  end.

(** A network whose answer to a URL does not depend on what was asked
    before. *)
Definition stateless (net : Network) : Prop :=
  forall history1 history2 url, net history1 url = net history2 url.

(** [l1] is [l2] with some elements left out, the others in their order. *)
Inductive Subsequence {A : Type} : list A -> list A -> Prop :=
| Subsequence_nil : Subsequence [] []
| Subsequence_skip x l1 l2 : Subsequence l1 l2 -> Subsequence l1 (x :: l2)
| Subsequence_take x l1 l2 : Subsequence l1 l2 -> Subsequence (x :: l1) (x :: l2).

(** The tail of a URL behind the host: nothing, or a slash and a path. *)
Definition isTail (tail : string) : Prop :=
  tail = "" \/ exists path, tail = String "/" path.

(** The names of a variant that are their own lower-case form. *)
Definition lowerCaseNames (V : Variant) : Variant := {|
  domainColumnNames :=
    filter (fun n => String.eqb (JS.toLowerCase n) n) (domainColumnNames V);
  noColumnMessage := noColumnMessage V
|}.

(** * Properties *)

(** ** Strings *)

Section StringFacts.

Import JS.


Lemma startsWith_inv p s : startsWith p s = true -> exists r, s = p ++ r.
Proof.
  revert s. induction p as [|a p IH]; intros s H.
  - now exists s.
  - destruct s as [|b s]; simpl in H; [discriminate|].
    apply andb_true_iff in H. destruct H as [Hab H].
    apply Ascii.eqb_eq in Hab. subst b.
    destruct (IH _ H) as [r ->]. now exists r.
Qed.

Lemma includes_startsWith p s : startsWith p s = true -> includes p s = true.
Proof. intros H. destruct s; cbn [includes]; rewrite H; reflexivity. Qed.




Lemma includes_false_cons p c s :
  includes p (String c s) = false ->
  startsWith p (String c s) = false /\ includes p s = false.
Proof. cbn [includes]. intros H. now apply orb_false_iff in H. Qed.

Lemma lowerChar_idem c : lowerChar (lowerChar c) = lowerChar c.
Proof. destruct c as [[] [] [] [] [] [] [] []]; reflexivity. Qed.

Lemma toLowerCase_idem s : toLowerCase (toLowerCase s) = toLowerCase s.
Proof. induction s; simpl; [|rewrite lowerChar_idem, IHs]; reflexivity. Qed.

Lemma removeMatches_lower s :
  toLowerCase s = s -> forall k, toLowerCase (removeMatches k s) = removeMatches k s.
Proof.
  induction s as [|c s IH]; simpl; intros H k; [reflexivity|].
  injection H as Hc Hs.
  destruct k; [|now apply IH].
  destruct (matchLength (String c s)) as [[|k]|]; simpl;
    rewrite ?Hc, ?IH; auto.
Qed.

Lemma beforeSlash_lower s :
  toLowerCase s = s -> toLowerCase (beforeSlash s) = beforeSlash s.
Proof.
  induction s as [|c s IH]; simpl; intros H; [reflexivity|].
  injection H as Hc Hs.
  destruct (Ascii.eqb c "/"); simpl; [reflexivity|].
  now rewrite Hc, IH.
Qed.

Lemma beforeSlash_idem s : beforeSlash (beforeSlash s) = beforeSlash s.
Proof.
  induction s as [|c s IH]; simpl; [reflexivity|].
  destruct (Ascii.eqb c "/") eqn:E; simpl; [reflexivity|].
  now rewrite E, IH.
Qed.

Lemma beforeSlash_no_slash s : includes "/" (beforeSlash s) = false.
Proof.
  induction s as [|c s IH]; simpl; [reflexivity|].
  destruct (Ascii.eqb c "/") eqn:E; [reflexivity|].
  cbn [includes]. rewrite IH, orb_false_r.
  cbn [startsWith]. now rewrite Ascii.eqb_sym, E.
Qed.

Lemma beforeSlash_fix s : includes "/" s = false -> beforeSlash s = s.
Proof.
  induction s as [|c s IH]; intros H; [reflexivity|].
  apply includes_false_cons in H. destruct H as [H1 H2].
  cbn [beforeSlash startsWith] in *.
  rewrite Ascii.eqb_sym in H1.
  destruct (Ascii.eqb c "/"); [discriminate H1 | now rewrite IH].
Qed.

(** The result of [split("/")[0]] is the part before the first slash. *)
Lemma beforeSlash_split s :
  exists rest, s = beforeSlash s ++ rest /\
               (rest = "" \/ exists r, rest = String "/" r).
Proof.
  induction s as [|c s (rest & E & H)]; simpl.
  - exists "". auto.
  - destruct (Ascii.eqb_spec c "/") as [->|_].
    + exists (String "/" s). split; [reflexivity | right; now exists s].
    + exists rest. simpl. split; [now rewrite <- E | exact H].
Qed.

Lemma matchLength_None s :
  (forall p, In p patterns -> startsWith p s = false) <-> matchLength s = None.
Proof.
  unfold matchLength, patterns. split.
  - intros H. rewrite !H; simpl; auto.
  - intros H p Hp.
    destruct (startsWith "https://" s) eqn:E1; [discriminate|].
    destruct (startsWith "http://" s) eqn:E2; [discriminate|].
    destruct (startsWith "www." s) eqn:E3; [discriminate|].
    simpl in Hp. destruct Hp as [<-|[<-|[<-|[]]]]; assumption.
Qed.

(** A match at the start is dropped whole, and the scan goes on behind. *)
Lemma removeMatches_match p s :
  In p patterns -> removeMatches 0 (p ++ s) = removeMatches 0 s.
Proof.
  unfold patterns. simpl. intros [<-|[<-|[<-|[]]]]; reflexivity.
Qed.

Lemma removeMatches_copy c s :
  matchLength (String c s) = None ->
  removeMatches 0 (String c s) = String c (removeMatches 0 s).
Proof. intros H. cbn [removeMatches]. now rewrite H. Qed.

Lemma matchLength_Some s n :
  matchLength s = Some n ->
  exists p r, In p patterns /\ s = p ++ r /\ n = String.length p.
Proof.
  unfold matchLength, patterns.
  destruct (startsWith "https://" s) eqn:E1;
    [|destruct (startsWith "http://" s) eqn:E2;
      [|destruct (startsWith "www." s) eqn:E3]];
    intros [= <-].
  - destruct (startsWith_inv _ _ E1) as [r ->]. exists "https://", r. simpl. auto.
  - destruct (startsWith_inv _ _ E2) as [r ->]. exists "http://", r. simpl. auto.
  - destruct (startsWith_inv _ _ E3) as [r ->]. exists "www.", r. simpl. auto.
Qed.

Lemma string_length_app a b : String.length (a ++ b) = (String.length a + String.length b)%nat.
Proof. induction a; simpl; auto. Qed.

Lemma removeMatches_Removed_fuel n :
  forall s, (String.length s <= n)%nat -> Removed s (removeMatches 0 s).
Proof.
  induction n as [|n IH]; intros s Hn.
  - destruct s; [constructor | simpl in Hn; lia].
  - destruct s as [|c s]; [constructor|].
    destruct (matchLength (String c s)) as [k|] eqn:E.
    + destruct (matchLength_Some _ _ E) as (p & r & Hp & Es & _).
      rewrite Es, removeMatches_match by exact Hp.
      apply Removed_match; [exact Hp|]. apply IH.
      assert (Hl : String.length (String c s) = String.length (p ++ r)) by now rewrite Es.
      rewrite string_length_app in Hl. simpl in Hl, Hn.
      assert (1 <= String.length p)%nat; [|lia].
      unfold patterns in Hp. simpl in Hp.
      destruct Hp as [<-|[<-|[<-|[]]]]; simpl; lia.
    + rewrite removeMatches_copy by exact E.
      apply Removed_copy; [now apply matchLength_None|].
      apply IH. simpl in Hn. lia.
Qed.

(** [removeMatches 0] computes the relation, and nothing else satisfies it. *)
Lemma removeMatches_Removed s : Removed s (removeMatches 0 s).
Proof. now apply (removeMatches_Removed_fuel (String.length s)). Qed.

Lemma Removed_unique s r : Removed s r -> r = removeMatches 0 s.
Proof.
  induction 1 as [|p s r Hp _ IH|c s r Hc _ IH].
  - reflexivity.
  - now rewrite removeMatches_match.
  - rewrite removeMatches_copy; [now rewrite IH | now apply matchLength_None].
Qed.

Lemma removeMatches_fix s : matchFree s -> removeMatches 0 s = s.
Proof.
  unfold matchFree. induction s as [|c s IH]; intros H; [reflexivity|].
  rewrite removeMatches_copy.
  - rewrite IH; [reflexivity|].
    intros p Hp. now apply (includes_false_cons p c s), H.
  - apply matchLength_None. intros p Hp.
    now apply (includes_false_cons p c s), H.
Qed.

End StringFacts.

(** ** [trim] *)

Section TrimFacts.

Import JS.

Lemma trimStart_shape s :
  exists a, s = a ++ trimStart s /\ allWhite a = true /\
            headWhite (trimStart s) = false.
Proof.
  induction s as [|c s (a & E & Ha & Hh)]; simpl.
  - now exists "".
  - destruct (isWhiteSpace c) eqn:Hc.
    + exists (String c a). simpl. rewrite Hc, Ha, <- E. auto.
    + exists "". simpl. auto.
Qed.

Lemma trimEnd_shape s :
  exists b, s = trimEnd s ++ b /\ allWhite b = true /\
            lastWhite (trimEnd s) = false.
Proof.
  induction s as [|c s (b & E & Hb & Hl)]; cbn [trimEnd].
  - now exists "".
  - destruct (trimEnd s) as [|c' r] eqn:Er.
    + cbn [append] in E. subst b.
      destruct (isWhiteSpace c) eqn:Hc.
      * exists (String c s). simpl. now rewrite Hc, Hb.
      * exists s. simpl. now rewrite Hc.
    + exists b. cbn [append] in *. now rewrite <- E.
Qed.

Lemma trimEnd_head s : headWhite s = false -> headWhite (trimEnd s) = false.
Proof.
  destruct s as [|c s]; cbn [trimEnd headWhite]; [reflexivity|]. intros Hc.
  destruct (trimEnd s); [rewrite Hc|]; simpl; auto.
Qed.

(** [trim] removes a run of white space at each end, and the result
    neither starts nor ends with white space. *)
Lemma trim_shape s :
  exists a b, s = a ++ trim s ++ b /\ allWhite a = true /\ allWhite b = true /\
              headWhite (trim s) = false /\ lastWhite (trim s) = false.
Proof.
  unfold trim.
  destruct (trimStart_shape s) as (a & Ea & Ha & Hh).
  destruct (trimEnd_shape (trimStart s)) as (b & Eb & Hb & Hl).
  exists a, b. rewrite <- Eb. repeat split; auto using trimEnd_head.
Qed.

End TrimFacts.

(** ** The domain normalizer *)

Example normalizeDomain_examples :
  normalizeDomain (Some "  Foo.COM ") = Some "foo.com" /\
  normalizeDomain (Some "http://a.io") = Some "a.io" /\
  normalizeDomain (Some "www.") = Some "" /\
  normalizeDomain (Some "wwww.ww.") = Some "www." /\
  normalizeLeadingOnly (Some "HTTPS://WWW.Example.com/path?q=1") = Some "example.com".
Proof. repeat split; reflexivity. Qed.

Lemma normalizeDomain_nonempty d :
  d <> "" ->
  normalizeDomain (Some d) =
  Some (JS.beforeSlash (JS.removeMatches 0 (JS.toLowerCase (JS.trim d)))).
Proof. destruct d; [congruence | reflexivity]. Qed.

(** The output of the normalizer is in lower case and has no slash. *)
Lemma normalizeDomain_output d s :
  normalizeDomain d = Some s ->
  JS.toLowerCase s = s /\ JS.includes "/" s = false.
Proof.
  destruct d as [[|c d]|]; [discriminate | | discriminate].
  intros [= <-]. split.
  - apply beforeSlash_lower, removeMatches_lower, toLowerCase_idem.
  - apply beforeSlash_no_slash.
Qed.

(** A non-empty, trimmed string in lower case, without a slash and without
    a match of the expression, is left as it is. *)
Lemma normalizeDomain_fix s :
  s <> "" -> JS.trim s = s -> JS.toLowerCase s = s ->
  JS.includes "/" s = false -> matchFree s ->
  normalizeDomain (Some s) = Some s.
Proof.
  intros Hne Ht Hl Hs Hm.
  rewrite normalizeDomain_nonempty by exact Hne.
  now rewrite Ht, Hl, removeMatches_fix, beforeSlash_fix.
Qed.

(** C3, as stated, fails: one pass of the replacement can assemble a new
    match out of what it leaves ([wwww.ww.] becomes [www.], which becomes
    the empty string). *)
Lemma normalizeDomain_not_idempotent :
  normalizeDomain (normalizeDomain (Some "wwww.ww.")) <>
  normalizeDomain (Some "wwww.ww.").
Proof. discriminate. Qed.

(** C3 (amended): [normalizeDomain] is idempotent at every string [x] whose
    normal form is non-empty, has no white space at either end and holds no
    remaining match of [http://], [https://] or [www.]. *)
Theorem normalizeDomain_idempotent_when_clean (x s : string) :
  normalizeDomain (Some x) = Some s ->
  s <> "" -> JS.trim s = s -> matchFree s ->
  normalizeDomain (normalizeDomain (Some x)) = normalizeDomain (Some x).
Proof.
  intros E Hne Ht Hm. rewrite E.
  destruct (normalizeDomain_output _ _ E) as [Hl Hs].
  now apply normalizeDomain_fix.
Qed.

Lemma normalizeDomain_idempotent_when_clean_witness :
  normalizeDomain (normalizeDomain (Some "HTTPS://WWW.Example.com/path?q=1")) =
  normalizeDomain (Some "HTTPS://WWW.Example.com/path?q=1").
Proof.
  apply (normalizeDomain_idempotent_when_clean _ "example.com").
  - reflexivity.
  - discriminate.
  - reflexivity.
  - intros p [<-|[<-|[<-|[]]]]; reflexivity.
Defined.

(** C4, as stated, fails: the scheme and [www.] are removed wherever they
    occur, not only at the start of the string. *)
Lemma normalizeDomain_strips_inside :
  normalizeDomain (Some "mywww.example.com") <>
  normalizeLeadingOnly (Some "mywww.example.com").
Proof. discriminate. Qed.

(** C4 (amended): absent and empty input yield absent.  For every non-empty
    input, the white space at both ends is trimmed and the string put in
    lower case, every match of [http://], [https://] or [www.] met by a
    left-to-right scan is deleted, wherever it stands, and the part before
    the first slash is returned.  The example of the specification holds,
    and a string that, trimmed and in lower case, has neither a match nor a
    slash is returned in that form. *)
Theorem normalizeDomain_behaviour :
  normalizeDomain None = None /\
  normalizeDomain (Some "") = None /\
  (forall d, d <> "" ->
     exists a b r t rest,
       d = a ++ JS.trim d ++ b /\
       allWhite a = true /\ allWhite b = true /\
       headWhite (JS.trim d) = false /\ lastWhite (JS.trim d) = false /\
       Removed (JS.toLowerCase (JS.trim d)) r /\
       (forall r', Removed (JS.toLowerCase (JS.trim d)) r' -> r' = r) /\
       r = t ++ rest /\ (rest = "" \/ exists q, rest = String "/" q) /\
       JS.includes "/" t = false /\
       normalizeDomain (Some d) = Some t) /\
  normalizeDomain (Some "HTTPS://WWW.Example.com/path?q=1") = Some "example.com" /\
  normalizeDomain (Some "mywww.example.com") = Some "myexample.com" /\
  (forall d, d <> "" ->
     matchFree (JS.toLowerCase (JS.trim d)) ->
     JS.includes "/" (JS.toLowerCase (JS.trim d)) = false ->
     normalizeDomain (Some d) = Some (JS.toLowerCase (JS.trim d))).
Proof.
  repeat apply conj; try reflexivity.
  - intros d Hd.
    set (u := JS.toLowerCase (JS.trim d)).
    destruct (trim_shape d) as (a & b & Ed & Ha & Hb & Hh & Hl).
    destruct (beforeSlash_split (JS.removeMatches 0 u)) as (rest & E & Hrest).
    exists a, b, (JS.removeMatches 0 u),
      (JS.beforeSlash (JS.removeMatches 0 u)), rest.
    repeat apply conj; auto.
    + apply removeMatches_Removed.
    + apply Removed_unique.
    + apply beforeSlash_no_slash.
    + now apply normalizeDomain_nonempty.
  - intros d Hd Hm Hs.
    rewrite normalizeDomain_nonempty by exact Hd.
    now rewrite removeMatches_fix, beforeSlash_fix.
Qed.

Lemma normalizeDomain_behaviour_witness :
  normalizeDomain (Some " Example.ORG ") = Some "example.org".
Proof.
  apply (proj2 (proj2 (proj2 (proj2 (proj2 normalizeDomain_behaviour))))).
  - discriminate.
  - intros p [<-|[<-|[<-|[]]]]; reflexivity.
  - reflexivity.
Defined.

(** ** Objects *)

Lemma keys_set_new (o : Obj.t) k v :
  ~ In k (Obj.keys o) -> Obj.keys (Obj.set o k v) = (Obj.keys o ++ [k])%list.
Proof.
  induction o as [|[k' v'] o IH]; simpl; intros H; [reflexivity|].
  destruct (String.eqb_spec k' k) as [->|_]; [tauto|].
  simpl. rewrite IH; tauto.
Qed.

Lemma keys_set_old (o : Obj.t) k v :
  In k (Obj.keys o) -> Obj.keys (Obj.set o k v) = Obj.keys o.
Proof.
  induction o as [|[k' v'] o IH]; simpl; intros H; [tauto|].
  destruct (String.eqb_spec k' k) as [->|Hn]; [reflexivity|].
  simpl. rewrite IH; [reflexivity|]. destruct H; congruence.
Qed.

Lemma keys_set_in (o : Obj.t) k v : In k (Obj.keys (Obj.set o k v)).
Proof.
  induction o as [|[k' v'] o IH]; simpl; [now left|].
  destruct (String.eqb_spec k' k) as [->|Hn]; simpl; auto.
Qed.

Lemma get_set_same (o : Obj.t) k v : Obj.get (Obj.set o k v) k = v.
Proof.
  induction o as [|[k' v'] o IH]; simpl.
  - now rewrite String.eqb_refl.
  - destruct (String.eqb k' k) eqn:E; simpl; now rewrite E.
Qed.

(** After the [map] of lines 99-102 every row carries its normalized domain. *)
Lemma normalizeRow_get col row :
  Obj.get (normalizeRow col row) "normalizedDomain" =
  normalizeDomain (Obj.get row col).
Proof. apply get_set_same. Qed.

(** ** The loop *)

Ltac loop_cases net st row :=
  unfold loopBody;
  destruct (Obj.get row "normalizedDomain") as [[|?c ?d]|] eqn:?Hnd;
  [ | destruct (net (requests st) (resolveURL (String c d))) as [|?resp] eqn:?Hnet;
      [ | destruct (hasOutlook (mxRecords resp)) eqn:?Hout ] | ];
  cbn [filteredData filteredRecords requests consoleErrors].

Lemma runLoop_app net st rows1 rows2 :
  runLoop net st (rows1 ++ rows2) = runLoop net (runLoop net st rows1) rows2.
Proof. apply fold_left_app. Qed.

Lemma runLoop_cons net st row rows :
  runLoop net st (row :: rows) = runLoop net (loopBody net st row) rows.
Proof. reflexivity. Qed.

Lemma loopBody_skip net st row :
  lookedUp row = false -> loopBody net st row = st.
Proof.
  unfold lookedUp, loopBody.
  destruct (Obj.get row "normalizedDomain") as [[|c d]|]; simpl;
    [reflexivity | discriminate | reflexivity].
Qed.

Lemma loopBody_requests net st row :
  requests (loopBody net st row) =
  (requests st ++ (if lookedUp row then [lookupURL row] else []))%list.
Proof.
  unfold lookedUp, lookupURL. loop_cases net st row; simpl;
    rewrite ?app_nil_r; reflexivity.
Qed.

Lemma runLoop_requests net rows :
  forall st,
    requests (runLoop net st rows) =
    (requests st ++ map lookupURL (filter lookedUp rows))%list.
Proof.
  induction rows as [|row rows IH]; intros st; simpl.
  - now rewrite app_nil_r.
  - fold (runLoop net (loopBody net st row) rows).
    rewrite IH, loopBody_requests.
    destruct (lookedUp row); simpl; now rewrite <- app_assoc.
Qed.

Lemma loopBody_count net st row :
  let st' := loopBody net st row in
  (filteredRecords st <= filteredRecords st' /\
   filteredRecords st' + Z.of_nat (length (filteredData st'))
   <= filteredRecords st + Z.of_nat (length (filteredData st)) + 1)%Z.
Proof.
  cbn zeta. loop_cases net st row; rewrite ?List.length_app; simpl; lia.
Qed.

Lemma runLoop_count net rows :
  forall st,
    let st' := runLoop net st rows in
    (filteredRecords st <= filteredRecords st' /\
     filteredRecords st' + Z.of_nat (length (filteredData st'))
     <= filteredRecords st + Z.of_nat (length (filteredData st))
        + Z.of_nat (length rows))%Z.
Proof.
  induction rows as [|row rows IH]; intros st; cbn zeta.
  - simpl. lia.
  - rewrite runLoop_cons.
    specialize (IH (loopBody net st row)). cbn zeta in IH.
    pose proof (loopBody_count net st row) as H. cbn zeta in H.
    cbn [length]. lia.
Qed.

(** Whatever is kept is one of the rows the loop went through. *)
Lemma loopBody_kept net st row r :
  In r (filteredData (loopBody net st row)) ->
  In r (filteredData st) \/ r = row.
Proof.
  loop_cases net st row; auto.
  intros H. apply in_app_or in H. destruct H as [H|[<-|[]]]; auto.
Qed.

Lemma runLoop_kept net rows :
  forall st r,
    In r (filteredData (runLoop net st rows)) ->
    In r (filteredData st) \/ In r rows.
Proof.
  induction rows as [|row rows IH]; intros st r H; [now left|].
  rewrite runLoop_cons in H.
  destruct (IH _ _ H) as [H'|H']; [|right; now right].
  destruct (loopBody_kept _ _ _ _ H') as [Hk | ->]; [now left | right; now left].
Qed.

(** ** Column detection *)

(** [find] returns the first key, in the order of the keys, whose lower-case
    form is in the list; it returns nothing iff no key is. *)
Lemma findDomainColumn_first V keys col :
  findDomainColumn V keys = Some col <->
  exists before after,
    keys = (before ++ col :: after)%list /\
    isDomainName V col = true /\
    forall k, In k before -> isDomainName V k = false.
Proof.
  unfold findDomainColumn. fold (isDomainName V).
  induction keys as [|k keys IH]; simpl.
  - split; [discriminate|]. intros (b & a & E & _). now destruct b.
  - destruct (isDomainName V k) eqn:Ek; split.
    + intros [= <-]. exists [], keys. repeat split; [exact Ek | intros ? []].
    + intros ([|k' b] & a & E & Hc & Hb); injection E as -> E'.
      * reflexivity.
      * rewrite Hb in Ek by now left. discriminate.
    + intros H. apply IH in H. destruct H as (b & a & -> & Hc & Hb).
      exists (k :: b), a. repeat split; [exact Hc|].
      intros k' [<-|Hk']; auto.
    + intros ([|k' b] & a & E & Hc & Hb); injection E as -> E'.
      * congruence.
      * apply IH. exists b, a. repeat split; auto. intros; apply Hb; now right.
Qed.

Lemma findDomainColumn_none V keys :
  findDomainColumn V keys = None <->
  forall k, In k keys -> isDomainName V k = false.
Proof.
  unfold findDomainColumn. fold (isDomainName V).
  induction keys as [|k keys IH]; simpl.
  - split; [intros _ ? [] | reflexivity].
  - destruct (isDomainName V k) eqn:Ek; split.
    + discriminate.
    + intros H. rewrite H in Ek by now left. discriminate.
    + intros H k' [<-|Hk']; [exact Ek | now apply IH].
    + intros H. apply IH. intros; apply H; now right.
Qed.

(** A name in the list never is the empty string, so a column that is found
    is truthy. *)
Lemma findDomainColumn_truthy V keys col :
  ~ In "" (domainColumnNames V) ->
  findDomainColumn V keys = Some col -> col <> "".
Proof.
  intros Hn H ->. apply findDomainColumn_first in H.
  destruct H as (_ & _ & _ & Hc & _).
  unfold isDomainName, JS.Array_includes in Hc. cbn [JS.toLowerCase] in Hc.
  apply existsb_exists in Hc. destruct Hc as (x & Hx & E).
  apply String.eqb_eq in E. now subst x.
Qed.

(** C5 (the code falls short of it in the first variant): the first key in
    column order whose lower-case form is in the list is returned; with the
    list of the second variant the header [Name, Company Website, Domain]
    gives [Company Website]; with the list of the first variant, whose
    entry [Company website] can never equal a lower-cased key, the same
    header gives [Domain]. *)
Theorem findDomainColumn_company_website :
  findDomainColumn variant2 ["Name"; "Company Website"; "Domain"]
  = Some "Company Website" /\
  findDomainColumn variant1 ["Name"; "Company Website"; "Domain"]
  = Some "Domain" /\
  findDomainColumn variant2 ["Name"; "Email"] = None.
Proof. repeat split; reflexivity. Qed.

(** ** The filter loop *)

(** C1, as stated, fails: a row whose lookup is rejected is not among the
    kept rows. *)
Lemma rejected_lookup_row_not_kept :
  ~ In (normalizeRow "domain" [("domain", Some "example.com")])
       (filteredData
          (runLoop (fun _ _ => Rejected) loopStart
             (normalizedData "domain" [[("domain", Some "example.com")]]))).
Proof. simpl. tauto. Qed.

(** C1 (amended): when the lookup of a row is rejected, the row is neither
    kept nor counted as removed, the request was sent and the failure is
    reported on the console, and the loop goes on with the remaining rows. *)
Theorem rejected_lookup_row_dropped_uncounted
    (net : Network) (st0 : Loop) (before after : list CSVRow)
    (row : CSVRow) (domain : string) :
  let s1 := runLoop net st0 before in
  let s2 := loopBody net s1 row in
  Obj.get row "normalizedDomain" = Some domain ->
  domain <> "" ->
  net (requests s1) (resolveURL domain) = Rejected ->
  filteredData s2 = filteredData s1 /\
  filteredRecords s2 = filteredRecords s1 /\
  requests s2 = (requests s1 ++ [resolveURL domain])%list /\
  consoleErrors s2 = (consoleErrors s1 ++ [domain])%list /\
  runLoop net st0 (before ++ row :: after) = runLoop net s2 after.
Proof.
  intros s1 s2 Hnd Hne Hnet. subst s2.
  rewrite runLoop_app, runLoop_cons. fold s1.
  unfold loopBody. rewrite Hnd.
  destruct domain as [|c d]; [congruence|].
  rewrite Hnet. cbn. auto.
Qed.

Lemma rejected_lookup_row_dropped_uncounted_witness :
  filteredData
    (loopBody (fun _ _ => Rejected) loopStart
       [("domain", Some "a.io"); ("normalizedDomain", Some "a.io")]) = [].
Proof.
  apply (rejected_lookup_row_dropped_uncounted
           (fun _ _ => Rejected) loopStart [] []
           [("domain", Some "a.io"); ("normalizedDomain", Some "a.io")] "a.io").
  - reflexivity.
  - discriminate.
  - reflexivity.
Defined.




(** C7, as stated, fails: a normalized domain can be present and empty (the
    normal form of [www.] is the empty string), and such a row causes no
    request. *)
Lemma empty_normalizedDomain_not_looked_up :
  Obj.get (normalizeRow "domain" [("domain", Some "www.")]) "normalizedDomain"
  = Some "" /\
  requests
    (runLoop (fun _ _ => answer []) loopStart
       (normalizedData "domain" [[("domain", Some "www.")]])) = [].
Proof. split; reflexivity. Qed.

(** C7 (amended): the requests sent by the loop are, in row order, one
    request for each row whose normalized domain is present and not empty;
    a row whose normalized domain is absent or empty is skipped: the turn
    changes nothing (no request, not kept, not counted).  Kept and removed
    rows can therefore be fewer than the input rows. *)
Theorem one_lookup_per_nonempty_domain (net : Network) (st : Loop) :
  (forall rows,
     requests (runLoop net st rows) =
     (requests st ++ map lookupURL (filter lookedUp rows))%list) /\
  (forall row,
     lookedUp row = true ->
     exists domain,
       Obj.get row "normalizedDomain" = Some domain /\ domain <> "" /\
       requests (loopBody net st row) = (requests st ++ [resolveURL domain])%list) /\
  (forall row,
     Obj.get row "normalizedDomain" = None \/
     Obj.get row "normalizedDomain" = Some "" ->
     loopBody net st row = st) /\
  (let rows := normalizedData "domain"
                 [[("domain", Some "")]; [("domain", Some "a.io")]] in
   let out := runLoop (fun _ _ => answer []) loopStart rows in
   (filteredRecords out + Z.of_nat (length (filteredData out))
    < Z.of_nat (length rows))%Z).
Proof.
  repeat split.
  - intros rows. apply runLoop_requests.
  - intros row Hl. rewrite loopBody_requests, Hl.
    unfold lookedUp in Hl. unfold lookupURL.
    destruct (Obj.get row "normalizedDomain") as [[|c d]|]; try discriminate Hl.
    exists (String c d). repeat split. discriminate.
  - intros row H. apply loopBody_skip. unfold lookedUp.
    destruct H as [-> | ->]; reflexivity.
Qed.

Lemma one_lookup_per_nonempty_domain_witness :
  loopBody (fun _ _ => Rejected) loopStart
    [("domain", Some "www."); ("normalizedDomain", Some "")] = loopStart.
Proof.
  apply (proj1 (proj2 (proj2 (one_lookup_per_nonempty_domain
                                (fun _ _ => Rejected) loopStart)))).
  right. reflexivity.
Defined.

(** C9: for every data set and every domain column, the number of removed
    rows is not negative and, added to the number of kept rows, does not
    exceed the number of input rows. *)
Theorem removed_plus_kept_bounded
    (net : Network) (domainColumn : string) (rows : list CSVRow) :
  let out := runLoop net loopStart (normalizedData domainColumn rows) in
  (0 <= filteredRecords out)%Z /\
  (filteredRecords out + Z.of_nat (length (filteredData out))
   <= Z.of_nat (length rows))%Z.
Proof.
  intros out.
  pose proof (runLoop_count net (normalizedData domainColumn rows) loopStart) as H.
  cbn zeta in H. fold out in H.
  unfold normalizedData in H. rewrite length_map in H. simpl in H. lia.
Qed.

(** ** The [complete] callback *)

Lemma complete_abort V net results st :
  findDomainColumn V (firstRowKeys (Papa.data results)) = None ->
  complete V net results st = (aborted V st, []).
Proof. unfold complete. now intros ->. Qed.

(** A run that found its column: the state holds the outcome of the loop. *)
Lemma complete_done V net results st st' sent :
  ~ In "" (domainColumnNames V) ->
  complete V net results st = (st', sent) ->
  error st' = None ->
  exists domainColumn,
    findDomainColumn V (firstRowKeys (Papa.data results)) = Some domainColumn /\
    let out := runLoop net loopStart
                 (normalizedData domainColumn (Papa.data results)) in
    processedData st' = Some (filteredData out) /\
    filteredCount st' = filteredRecords out /\
    sent = requests out.
Proof.
  intros Hn. unfold complete.
  destruct (findDomainColumn V (firstRowKeys (Papa.data results)))
    as [col|] eqn:E.
  - pose proof (findDomainColumn_truthy _ _ _ Hn E) as Hne.
    destruct col as [|c d]; [congruence|].
    intros [= <- <-] _. exists (String c d). cbn. auto.
  - intros [= <- <-]. discriminate.
Qed.

(** C8: when no key of the header has its lower-case form in the list (the
    rows having their keys from the header), [complete] stops with the error
    message: no request is sent, and the kept rows and the count stay what
    they were (nothing and zero after an upload). *)
Theorem no_column_no_request
    (V : Variant) (net : Network) (results : Papa.ParseResult) (st : State) :
  (forall row col, In row (Papa.data results) -> In col (Obj.keys row) ->
                   In col (Papa.meta_fields results)) ->
  (forall col, In col (Papa.meta_fields results) ->
               JS.Array_includes (domainColumnNames V) (JS.toLowerCase col) = false) ->
  complete V net results st = (aborted V st, []) /\
  snd (complete V net results st) = [] /\
  error (fst (complete V net results st)) = Some (noColumnMessage V) /\
  processedData (fst (complete V net results st)) = processedData st /\
  filteredCount (fst (complete V net results st)) = filteredCount st /\
  processedData (fst (complete V net results (afterUpload st))) = None /\
  filteredCount (fst (complete V net results (afterUpload st))) = 0%Z.
Proof.
  intros Hrows Hnone.
  assert (H : findDomainColumn V (firstRowKeys (Papa.data results)) = None).
  { apply findDomainColumn_none. intros k Hk. apply Hnone.
    destruct (Papa.data results) as [|row rows]; [destruct Hk|].
    apply (Hrows row); [now left | exact Hk]. }
  rewrite !complete_abort by exact H. cbn. auto 10.
Qed.

Lemma no_column_no_request_witness :
  snd (complete variant2 (fun _ _ => answer [])
         {| Papa.data := [[("Name", Some "Ann"); ("Email", Some "ann@a.io")]];
            Papa.meta_fields := ["Name"; "Email"] |} idle) = [].
Proof.
  apply (no_column_no_request variant2 (fun _ _ => answer [])
           {| Papa.data := [[("Name", Some "Ann"); ("Email", Some "ann@a.io")]];
              Papa.meta_fields := ["Name"; "Email"] |} idle).
  - intros row col [<-|[]] Hc. exact Hc.
  - intros col [<-|[<-|[]]]; reflexivity.
Defined.

(** C10: with no data row, whatever the header, [complete] stops with the
    error message and sends no request: the keys are read from the first
    data row, and there is none. *)
Theorem no_rows_always_aborts
    (V : Variant) (net : Network) (fields : list string) (st : State) :
  firstRowKeys [] = [] /\
  complete V net {| Papa.data := []; Papa.meta_fields := fields |} st
  = (aborted V st, []) /\
  error (aborted V st) = Some (noColumnMessage V).
Proof. repeat split. Qed.

(** A run on two rows: the row hosted on the excluded provider is counted,
    the other one is kept, and one request was sent for each. *)
Example complete_two_rows :
  let net : Network := fun _ url =>
    if String.eqb url (resolveURL "outlook.com")
    then answer ["5 outlook-com.olc.protection.outlook.com."]
    else answer [] in
  let results := {|
    Papa.data := [[("domain", Some "outlook.com"); ("company", Some "A")];
                  [("domain", Some "google.com"); ("company", Some "B")]];
    Papa.meta_fields := ["domain"; "company"] |} in
  complete variant2 net results idle =
  ({| processedData :=
        Some [[("domain", Some "google.com"); ("company", Some "B");
               ("normalizedDomain", Some "google.com")]];
      loading := false;
      error := None;
      filteredCount := 1%Z;
      showConfetti := true |},
   [resolveURL "outlook.com"; resolveURL "google.com"]).
Proof. reflexivity. Qed.

(** ** The exported file *)

Lemma variants_no_empty_name V :
  In V [variant1; variant2] -> ~ In "" (domainColumnNames V).
Proof.
  intros [<-|[<-|[]]] H; simpl in H;
    repeat (destruct H as [H|H]; [discriminate H|]); exact H.
Qed.

Lemma kept_rows_normalized net col rows r :
  In r (filteredData (runLoop net loopStart (normalizedData col rows))) ->
  exists row, In row rows /\ r = normalizeRow col row.
Proof.
  intros H. apply runLoop_kept in H. destruct H as [[]|H].
  unfold normalizedData in H. apply in_map_iff in H.
  destruct H as (row & <- & Hr). now exists row.
Qed.

(** C2, as stated, fails: the kept rows are exported with the property
    [normalizedDomain] the pipeline added to them. *)
Lemma export_has_normalizedDomain_column :
  exportedColumns
    (fst (complete variant2 (fun _ _ => answer [])
            {| Papa.data := [[("domain", Some "Google.com"); ("company", Some "B")]];
               Papa.meta_fields := ["domain"; "company"] |} idle))
  <> ["domain"; "company"] /\
  downloadCSV
    (fst (complete variant2 (fun _ _ => answer [])
            {| Papa.data := [[("domain", Some "Google.com"); ("company", Some "B")]];
               Papa.meta_fields := ["domain"; "company"] |} idle))
  = Some [["domain"; "company"; "normalizedDomain"];
          ["Google.com"; "B"; "google.com"]].
Proof. split; [discriminate | reflexivity]. Qed.

(** C2 (amended): in both variants, after a run that found its column, the
    exported file is empty, without a header line, when no row was kept;
    when a row was kept, its columns are the properties of the first kept
    row, which are the properties of one input row, in the order
    [Object.keys] gives them, followed by one more column,
    [normalizedDomain] (or that row's properties alone when the input
    already has a property of that name): [normalizedDomain] always is a
    column of the export.  In particular, when every row lists the columns
    of the header in header order and none is named [normalizedDomain], the
    export has the header followed by [normalizedDomain]. *)
Theorem exported_columns_are_input_plus_normalizedDomain
    (V : Variant) (net : Network) (results : Papa.ParseResult)
    (st st' : State) (sent : list string) :
  In V [variant1; variant2] ->
  complete V net results st = (st', sent) ->
  error st' = None ->
  exists kept,
    processedData st' = Some kept /\
    (kept = [] -> downloadCSV st' = Some []) /\
    (forall first rest,
       kept = first :: rest ->
       exists row lines,
         In row (Papa.data results) /\
         downloadCSV st' = Some (exportedColumns st' :: lines) /\
         exportedColumns st' = Obj.keys first /\
         In "normalizedDomain" (exportedColumns st') /\
         (~ In "normalizedDomain" (Obj.keys row) ->
          exportedColumns st' = (Obj.keys row ++ ["normalizedDomain"])%list) /\
         (In "normalizedDomain" (Obj.keys row) ->
          exportedColumns st' = Obj.keys row)) /\
    ((forall row, In row (Papa.data results) ->
                  Obj.keys row = Papa.meta_fields results) ->
     ~ In "normalizedDomain" (Papa.meta_fields results) ->
     let columns := (Papa.meta_fields results ++ ["normalizedDomain"])%list in
     downloadCSV st' =
     Some (match kept with
           | [] => []
           | _ :: _ => columns :: map (fun r => map (Papa.cell r) columns) kept
           end)).
Proof.
  intros HV Hc He.
  destruct (complete_done _ _ _ _ _ _ (variants_no_empty_name _ HV) Hc He)
    as (col & _ & Hp & _ & _).
  cbn zeta in Hp.
  pose proof (kept_rows_normalized net col (Papa.data results)) as Horigin.
  set (kept := filteredData _) in *.
  exists kept. split; [exact Hp|].
  unfold exportedColumns, downloadCSV. rewrite Hp.
  split; [intros ->; reflexivity|]. split.
  - intros first rest E. rewrite E in *.
    destruct (Horigin first (or_introl eq_refl)) as (row & Hrow & Ef).
    exists row, (map (fun r => map (Papa.cell r) (Obj.keys first)) (first :: rest)).
    cbn [Papa.unparse]. repeat split; auto.
    + rewrite Ef. unfold normalizeRow. apply keys_set_in.
    + intros Hn. rewrite Ef. unfold normalizeRow. now apply keys_set_new.
    + intros Hn. rewrite Ef. unfold normalizeRow. now apply keys_set_old.
  - intros Hkeys Hnew. cbn zeta. f_equal.
    assert (Hk : forall r, In r kept ->
                   Obj.keys r = (Papa.meta_fields results ++ ["normalizedDomain"])%list).
    { intros r Hr. apply Horigin in Hr.
      destruct Hr as (row & Hrow & ->). unfold normalizeRow.
      rewrite keys_set_new; rewrite (Hkeys _ Hrow); [reflexivity | exact Hnew]. }
    destruct kept as [|r0 kept']; [reflexivity|].
    unfold Papa.unparse. now rewrite (Hk r0) by now left.
Qed.

Lemma exported_columns_are_input_plus_normalizedDomain_witness :
  exists kept,
    processedData
      (fst (complete variant1 (fun _ _ => answer [])
              {| Papa.data := [[("1", Some "x"); ("domain", Some "a.io")]];
                 Papa.meta_fields := ["domain"; "1"] |} idle)) = Some kept /\
    exportedColumns
      (fst (complete variant1 (fun _ _ => answer [])
              {| Papa.data := [[("1", Some "x"); ("domain", Some "a.io")]];
                 Papa.meta_fields := ["domain"; "1"] |} idle))
    = ["1"; "domain"; "normalizedDomain"].
Proof.
  destruct (exported_columns_are_input_plus_normalizedDomain
              variant1 (fun _ _ => answer [])
              {| Papa.data := [[("1", Some "x"); ("domain", Some "a.io")]];
                 Papa.meta_fields := ["domain"; "1"] |}
              idle
              (fst (complete variant1 (fun _ _ => answer [])
                      {| Papa.data := [[("1", Some "x"); ("domain", Some "a.io")]];
                         Papa.meta_fields := ["domain"; "1"] |} idle))
              [resolveURL "a.io"]
              (or_introl eq_refl) eq_refl eq_refl)
    as (kept & Hp & _ & _ & _).
  exists kept. split; [exact Hp | reflexivity].
Defined.

(** * Further properties of the component *)

(** ** More on strings *)

Lemma isWhiteSpace_lowerChar c : JS.isWhiteSpace (JS.lowerChar c) = JS.isWhiteSpace c.
Proof. destruct c as [[] [] [] [] [] [] [] []]; reflexivity. Qed.

Lemma toLowerCase_app a b :
  JS.toLowerCase (a ++ b) = JS.toLowerCase a ++ JS.toLowerCase b.
Proof. induction a; simpl; [|rewrite IHa]; reflexivity. Qed.

Lemma trimStart_lower s :
  JS.trimStart (JS.toLowerCase s) = JS.toLowerCase (JS.trimStart s).
Proof.
  induction s as [|c s IH]; simpl; [reflexivity|].
  rewrite isWhiteSpace_lowerChar. now destruct (JS.isWhiteSpace c).
Qed.

Lemma trimEnd_lower s :
  JS.trimEnd (JS.toLowerCase s) = JS.toLowerCase (JS.trimEnd s).
Proof.
  induction s as [|c s IH]; cbn [JS.trimEnd JS.toLowerCase]; [reflexivity|].
  rewrite IH, isWhiteSpace_lowerChar.
  destruct (JS.trimEnd s); simpl; [now destruct (JS.isWhiteSpace c) | reflexivity].
Qed.

Lemma trim_lower s : JS.trim (JS.toLowerCase s) = JS.toLowerCase (JS.trim s).
Proof. unfold JS.trim. now rewrite trimStart_lower, trimEnd_lower. Qed.

Lemma trimStart_white_app a s :
  allWhite a = true -> JS.trimStart (a ++ s) = JS.trimStart s.
Proof.
  induction a as [|c a IH]; simpl; [reflexivity|].
  intros H. apply andb_true_iff in H. destruct H as [-> H]. auto.
Qed.

Lemma trimEnd_white b : allWhite b = true -> JS.trimEnd b = "".
Proof.
  induction b as [|c b IH]; cbn [JS.trimEnd allWhite]; [reflexivity|].
  intros H. apply andb_true_iff in H. destruct H as [Hc H].
  now rewrite IH, Hc.
Qed.

Lemma trimEnd_app_white s b :
  allWhite b = true -> JS.trimEnd (s ++ b) = JS.trimEnd s.
Proof.
  intros Hb. induction s as [|c s IH]; cbn [append JS.trimEnd].
  - now apply trimEnd_white.
  - now rewrite IH.
Qed.

Lemma trimStart_white b : allWhite b = true -> JS.trimStart b = "".
Proof.
  induction b as [|c b IH]; simpl; [reflexivity|].
  intros H. apply andb_true_iff in H. destruct H as [-> H]. auto.
Qed.

Lemma trim_app_white s b : allWhite b = true -> JS.trim (s ++ b) = JS.trim s.
Proof.
  intros Hb. unfold JS.trim. induction s as [|c s IH]; cbn [append JS.trimStart].
  - now rewrite trimStart_white.
  - destruct (JS.isWhiteSpace c); [exact IH|].
    now apply (trimEnd_app_white (String c s)).
Qed.

(** White space around the text does not count. *)
Lemma trim_surrounded a s b :
  allWhite a = true -> allWhite b = true -> JS.trim (a ++ s ++ b) = JS.trim s.
Proof.
  intros Ha Hb. unfold JS.trim at 1. rewrite trimStart_white_app by exact Ha.
  now apply trim_app_white.
Qed.

Lemma toLowerCase_empty s : JS.toLowerCase s = "" -> s = "".
Proof. now destruct s. Qed.

(** ** More on the domain normalizer *)

(** X1: whatever its input, a result of [normalizeDomain] is in lower case
    and has no slash, and it is a fixed point of [toLowerCase] and of
    [split("/")[0]]. *)
Theorem normalizeDomain_result_shape (d s : string) :
  normalizeDomain (Some d) = Some s ->
  JS.toLowerCase s = s /\
  JS.includes "/" s = false /\
  JS.beforeSlash s = s.
Proof.
  intros E. destruct (normalizeDomain_output _ _ E) as [Hl Hs].
  repeat split; auto. now apply beforeSlash_fix.
Qed.

Lemma normalizeDomain_result_shape_witness :
  JS.toLowerCase "example.com" = "example.com" /\
  JS.includes "/" "example.com" = false /\
  JS.beforeSlash "example.com" = "example.com".
Proof.
  apply (normalizeDomain_result_shape "HTTP://Example.com/a b" "example.com").
  reflexivity.
Defined.

(** X2: the normalizer does not see the case of its input: two strings with
    the same lower-case form have the same normal form. *)
Theorem normalizeDomain_ignores_case (d1 d2 : string) :
  JS.toLowerCase d1 = JS.toLowerCase d2 ->
  normalizeDomain (Some d1) = normalizeDomain (Some d2).
Proof.
  intros E.
  destruct d1 as [|c1 d1], d2 as [|c2 d2]; try discriminate E; [reflexivity|].
  cbn [normalizeDomain].
  now rewrite <- !trim_lower, E.
Qed.

Lemma normalizeDomain_ignores_case_witness :
  normalizeDomain (Some "WWW.Acme.IO/Shop") = normalizeDomain (Some "www.acme.io/shop").
Proof. apply normalizeDomain_ignores_case. reflexivity. Defined.

(** X3: white space before and after a non-empty text does not change its
    normal form. *)
Theorem normalizeDomain_ignores_surrounding_space (a d b : string) :
  allWhite a = true -> allWhite b = true -> d <> "" ->
  normalizeDomain (Some (a ++ d ++ b)) = normalizeDomain (Some d).
Proof.
  intros Ha Hb Hd.
  rewrite !normalizeDomain_nonempty; [now rewrite trim_surrounded | exact Hd |].
  destruct a; [destruct d; [congruence|] |]; discriminate.
Qed.

Lemma normalizeDomain_ignores_surrounding_space_witness :
  normalizeDomain (Some ("  " ++ "acme.io" ++ " ")) = normalizeDomain (Some "acme.io").
Proof.
  apply normalizeDomain_ignores_surrounding_space;
    [reflexivity | reflexivity | discriminate].
Defined.

(** ** URL-shaped input *)

Lemma startsWith_app_inv p h x t :
  JS.startsWith p (h ++ String x t) = true ->
  JS.startsWith p h = true \/ exists p2, p = h ++ String x p2.
Proof.
  revert h. induction p as [|a p IH]; intros h H; [now left|].
  destruct h as [|b h]; cbn [append JS.startsWith] in *.
  - apply andb_true_iff in H. destruct H as [Hax _].
    apply Ascii.eqb_eq in Hax. subst x. right. now exists p.
  - apply andb_true_iff in H. destruct H as [Hab H].
    apply Ascii.eqb_eq in Hab. subst b.
    destruct (IH _ H) as [Hl|[p2 ->]].
    + left. now rewrite Ascii.eqb_refl.
    + right. now exists p2.
Qed.

Lemma beforeSlash_app h r :
  JS.includes "/" h = false -> JS.beforeSlash (h ++ String "/" r) = h.
Proof.
  induction h as [|c h IH]; intros H; [reflexivity|].
  apply includes_false_cons in H. destruct H as [H1 H2].
  cbn [append JS.beforeSlash JS.startsWith] in *.
  rewrite Ascii.eqb_sym in H1.
  destruct (Ascii.eqb c "/"); [discriminate H1 | now rewrite IH].
Qed.

(** No match of the expression starts inside a text that is free of
    matches, has no slash and holds neither [http:] nor [https:], also when
    a slash follows it. *)
Lemma matchLength_before_slash h rest :
  h <> "" -> matchFree h -> JS.includes "/" h = false ->
  JS.includes "http:" h = false -> JS.includes "https:" h = false ->
  JS.matchLength (h ++ String "/" rest) = None.
Proof.
  intros Hne Hm Hs Hh1 Hh2. apply matchLength_None. intros p Hp.
  destruct (JS.startsWith p (h ++ String "/" rest)) eqn:E; [exfalso|reflexivity].
  destruct (startsWith_app_inv _ _ _ _ E) as [Hl|[p2 Ep]].
  - apply includes_startsWith in Hl. rewrite (Hm p Hp) in Hl. discriminate.
  - assert (Hb : JS.beforeSlash p = h) by (rewrite Ep; now apply beforeSlash_app).
    unfold patterns in Hp. simpl in Hp.
    destruct Hp as [<-|[<-|[<-|[]]]]; simpl in Hb; subst h.
    + vm_compute in Hh2. discriminate Hh2.
    + vm_compute in Hh1. discriminate Hh1.
    + specialize (Hm "www."). vm_compute in Hm.
      assert (true = false) by (apply Hm; auto). discriminate.
Qed.

Lemma removeMatches_before_slash h rest :
  matchFree h -> JS.includes "/" h = false ->
  JS.includes "http:" h = false -> JS.includes "https:" h = false ->
  JS.removeMatches 0 (h ++ String "/" rest) =
  h ++ String "/" (JS.removeMatches 0 rest).
Proof.
  induction h as [|c h IH]; intros Hm Hs Hh1 Hh2.
  - reflexivity.
  - cbn [append]. rewrite removeMatches_copy.
    + f_equal. apply IH.
      * intros p Hp. now apply (includes_false_cons p c h), Hm.
      * now apply (includes_false_cons "/" c h).
      * now apply (includes_false_cons "http:" c h).
      * now apply (includes_false_cons "https:" c h).
    + apply (matchLength_before_slash (String c h)); auto. discriminate.
Qed.

Lemma trimEnd_nonwhite c t :
  JS.isWhiteSpace c = false -> JS.trimEnd (String c t) = String c (JS.trimEnd t).
Proof. intros H. cbn [JS.trimEnd]. rewrite H. now destruct (JS.trimEnd t). Qed.

Lemma trimEnd_app_keep s t :
  JS.trimEnd t <> "" -> JS.trimEnd (s ++ t) = s ++ JS.trimEnd t.
Proof.
  intros H. induction s as [|c s IH]; cbn [append JS.trimEnd]; [reflexivity|].
  rewrite IH. destruct s; cbn [append]; [|reflexivity].
  destruct (JS.trimEnd t); [congruence | reflexivity].
Qed.

Lemma trimStart_head s : headWhite s = false -> JS.trimStart s = s.
Proof. destruct s; simpl; [reflexivity | now intros ->]. Qed.

Lemma trim_fix_parts s :
  JS.trim s = s -> headWhite s = false /\ JS.trimEnd s = s.
Proof.
  intros H. destruct (trim_shape s) as (_ & _ & _ & _ & _ & Hh & _).
  rewrite H in Hh. split; [exact Hh|].
  unfold JS.trim in H. now rewrite trimStart_head in H.
Qed.

Lemma string_app_empty_r s : s ++ "" = s.
Proof. induction s; simpl; congruence. Qed.

Lemma host_tail_trimEnd host tail :
  host <> "" -> JS.trimEnd host = host -> isTail tail ->
  exists tail', isTail tail' /\ JS.trimEnd (host ++ tail) = host ++ tail'.
Proof.
  intros Hne Ht [->|[path ->]].
  - exists "". split; [now left|].
    now rewrite string_app_empty_r.
  - exists (String "/" (JS.trimEnd path)). split; [right; eauto|].
    rewrite trimEnd_app_keep; rewrite trimEnd_nonwhite by reflexivity;
      [reflexivity | discriminate].
Qed.

Lemma host_tail_normal host tail :
  JS.toLowerCase host = host -> matchFree host ->
  JS.includes "/" host = false ->
  JS.includes "http:" host = false -> JS.includes "https:" host = false ->
  isTail tail ->
  JS.beforeSlash (JS.removeMatches 0 (JS.toLowerCase (host ++ tail))) = host.
Proof.
  intros Hl Hm Hs Hh1 Hh2 Htail. rewrite toLowerCase_app, Hl.
  destruct Htail as [->|[path ->]].
  - cbn [JS.toLowerCase].
    now rewrite string_app_empty_r, removeMatches_fix, beforeSlash_fix.
  - change (JS.toLowerCase (String "/" path))
      with (String "/" (JS.toLowerCase path)).
    rewrite removeMatches_before_slash by assumption.
    now apply beforeSlash_app.
Qed.

Lemma string_app_assoc a b c : (a ++ b) ++ c = a ++ b ++ c.
Proof. induction a; simpl; congruence. Qed.

Lemma trim_prefix P X :
  headWhite P = false -> P <> "" -> JS.trimEnd X <> "" ->
  JS.trim (P ++ X) = P ++ JS.trimEnd X.
Proof.
  intros Hh Hne HX. unfold JS.trim.
  rewrite trimStart_head; [now apply trimEnd_app_keep|].
  destruct P; [congruence | exact Hh].
Qed.

Lemma removeMatches_optional p Z :
  p = "" \/ In p patterns ->
  JS.removeMatches 0 (p ++ Z) = JS.removeMatches 0 Z.
Proof. intros [->|Hp]; [reflexivity | now apply removeMatches_match]. Qed.

(** X4: a URL made of an optional scheme, an optional [www.], a host and an
    optional path is normalized to its host, when the host is in lower
    case, trimmed, without a slash and without [http:], [https:] or [www.]
    inside. *)
Theorem normalizeDomain_url (scheme w host tail : string) :
  In scheme [""; "http://"; "https://"] ->
  In w [""; "www."] ->
  host <> "" ->
  JS.trim host = host ->
  JS.toLowerCase host = host ->
  matchFree host ->
  JS.includes "/" host = false ->
  JS.includes "http:" host = false ->
  JS.includes "https:" host = false ->
  isTail tail ->
  normalizeDomain (Some (scheme ++ w ++ host ++ tail)) = Some host.
Proof.
  intros Hscheme Hw Hne Htrim Hlow Hm Hs Hh1 Hh2 Htail.
  destruct (trim_fix_parts _ Htrim) as [Hhead Hend].
  destruct (host_tail_trimEnd host tail Hne Hend Htail) as (tail' & Htail' & E).
  assert (HX : JS.trimEnd (host ++ tail) <> "")
    by (rewrite E; destruct host; [congruence | discriminate]).
  assert (Hnorm := host_tail_normal host tail' Hlow Hm Hs Hh1 Hh2 Htail').
  assert (Hr : forall Z, JS.removeMatches 0 (scheme ++ w ++ Z) = JS.removeMatches 0 Z).
  { intros Z. rewrite removeMatches_optional, removeMatches_optional; auto.
    - simpl in Hw. unfold patterns. simpl. intuition.
    - simpl in Hscheme. unfold patterns. simpl. intuition. }
  assert (Hl : JS.toLowerCase (scheme ++ w) = scheme ++ w).
  { simpl in Hscheme, Hw.
    destruct Hscheme as [<-|[<-|[<-|[]]]]; destruct Hw as [<-|[<-|[]]]; reflexivity. }
  rewrite <- string_app_assoc.
  destruct (string_dec (scheme ++ w) "") as [E0|Hp].
  - rewrite E0. cbn [append].
    rewrite normalizeDomain_nonempty by (destruct host; [congruence | discriminate]).
    unfold JS.trim. rewrite trimStart_head by (destruct host; [congruence | exact Hhead]).
    now rewrite E, Hnorm.
  - rewrite normalizeDomain_nonempty
      by (destruct (scheme ++ w); [congruence | discriminate]).
    rewrite trim_prefix; auto.
    + rewrite E, toLowerCase_app, Hl, string_app_assoc, Hr. now rewrite Hnorm.
    + simpl in Hscheme, Hw.
      destruct Hscheme as [<-|[<-|[<-|[]]]]; destruct Hw as [<-|[<-|[]]]; reflexivity.
Qed.

Lemma normalizeDomain_url_witness :
  normalizeDomain (Some ("https://" ++ "www." ++ "shop.acme.io:8080" ++ "/cart?id=1 "))
  = Some "shop.acme.io:8080".
Proof.
  apply normalizeDomain_url.
  - right; right; left; reflexivity.
  - right; left; reflexivity.
  - discriminate.
  - reflexivity.
  - reflexivity.
  - intros p [<-|[<-|[<-|[]]]]; reflexivity.
  - reflexivity.
  - reflexivity.
  - reflexivity.
  - right. eexists. reflexivity.
Defined.

(** ** More on column detection *)

(** X5: in both variants, and for any list of names, the column found is
    the first key, in key order, whose lower-case form is in the list, and
    nothing is found exactly when no key has its lower-case form in it. *)
Theorem findDomainColumn_first_match (V : Variant) (keys : list string) :
  (forall col,
     findDomainColumn V keys = Some col <->
     exists before after,
       keys = (before ++ col :: after)%list /\
       isDomainName V col = true /\
       forall k, In k before -> isDomainName V k = false) /\
  (findDomainColumn V keys = None <->
   forall k, In k keys -> isDomainName V k = false).
Proof.
  split; [intros col; apply findDomainColumn_first | apply findDomainColumn_none].
Qed.

Lemma Array_includes_lower names x :
  JS.Array_includes names (JS.toLowerCase x) =
  JS.Array_includes
    (filter (fun n => String.eqb (JS.toLowerCase n) n) names) (JS.toLowerCase x).
Proof.
  unfold JS.Array_includes. induction names as [|n names IH]; [reflexivity|].
  cbn [existsb filter].
  destruct (String.eqb_spec (JS.toLowerCase x) n) as [<-|Hn].
  - rewrite toLowerCase_idem, String.eqb_refl. cbn [existsb].
    now rewrite String.eqb_refl.
  - destruct (String.eqb (JS.toLowerCase n) n); cbn [existsb]; rewrite IH;
      [|reflexivity].
    destruct (String.eqb_spec (JS.toLowerCase x) n); [contradiction | reflexivity].
Qed.

Lemma isDomainName_lowerCaseNames V col :
  isDomainName V col = isDomainName (lowerCaseNames V) col.
Proof. apply Array_includes_lower. Qed.

(** X6: a name of the list that is not in lower case never matches, since
    the key is put in lower case before the comparison: detection is the
    same with the lower-case names alone, which in the first variant are
    [domain], [website], [url] and [company domain]. *)
Theorem findDomainColumn_lower_case_names_only (V : Variant) (keys : list string) :
  findDomainColumn V keys = findDomainColumn (lowerCaseNames V) keys /\
  domainColumnNames (lowerCaseNames variant1)
  = ["domain"; "website"; "url"; "company domain"] /\
  domainColumnNames (lowerCaseNames variant2)
  = ["domain"; "website"; "url"; "web address"; "company website";
     "company domain"; "business website"; "business domain"; "web_site";
     "web-site"; "web.address"; "company_website"; "company.website";
     "companydomain"; "businesswebsite"; "homepage"; "landing_page";
     "primary_url"; "root_domain"; "site_url"; "website_url";
     "corporate_site"; "corporate_url"; "organization_url";
     "organization_site"; "company_url"; "business_url"].
Proof.
  repeat split.
  unfold findDomainColumn. induction keys as [|k keys IH]; [reflexivity|].
  cbn [find]. fold (isDomainName V k) (isDomainName (lowerCaseNames V) k).
  rewrite <- isDomainName_lowerCaseNames.
  destruct (isDomainName V k); [reflexivity | exact IH].
Qed.

Lemma isDomainName_variant1_variant2 col :
  isDomainName variant1 col = true -> isDomainName variant2 col = true.
Proof.
  rewrite isDomainName_lowerCaseNames.
  unfold isDomainName, JS.Array_includes. intros H.
  apply existsb_exists in H. destruct H as (n & Hn & E).
  apply String.eqb_eq in E. rewrite E.
  cbn in Hn. destruct Hn as [<-|[<-|[<-|[<-|[]]]]]; reflexivity.
Qed.

(** X7: every key the first variant accepts, the second variant accepts
    too; so a file in which the first variant finds a column is one in
    which the second variant finds a column (not always the same one). *)
Theorem variant2_finds_when_variant1_does (keys : list string) (col1 : string) :
  findDomainColumn variant1 keys = Some col1 ->
  isDomainName variant2 col1 = true /\
  exists col2, findDomainColumn variant2 keys = Some col2.
Proof.
  intros H. apply findDomainColumn_first in H.
  destruct H as (before & after & -> & Hc & _).
  apply isDomainName_variant1_variant2 in Hc. split; [exact Hc|].
  destruct (findDomainColumn variant2 (before ++ col1 :: after)) as [col2|] eqn:E;
    [now exists col2|].
  rewrite (proj1 (findDomainColumn_none _ _) E col1) in Hc; [discriminate|].
  apply in_or_app. right. now left.
Qed.

Lemma variant2_finds_when_variant1_does_witness :
  isDomainName variant2 "Domain" = true /\
  exists col2,
    findDomainColumn variant2 ["Name"; "Company Website"; "Domain"] = Some col2.
Proof.
  apply (variant2_finds_when_variant1_does ["Name"; "Company Website"; "Domain"]).
  reflexivity.
Defined.

(** ** More on the loop *)

(** A turn of the loop, field by field, in terms of the verdict. *)
Lemma loopBody_fields net st row :
  let v := verdict net (requests st) row in
  let st' := loopBody net st row in
  filteredData st' = (filteredData st ++ (if isKept v then [row] else []))%list /\
  filteredRecords st' = (filteredRecords st + (if isExcluded v then 1 else 0))%Z /\
  consoleErrors st' =
  (consoleErrors st ++ (if isFailed v then [domainOf row] else []))%list.
Proof.
  cbn zeta. unfold verdict, lookedUp, lookupURL, domainOf.
  loop_cases net st row; cbn [JS.truthy]; cbv iota;
    rewrite ?Hnet; cbv iota; rewrite ?Hout;
    cbn [isKept isExcluded isFailed];
    rewrite ?app_nil_r, ?Z.add_0_r; auto.
Qed.

Lemma Subsequence_unmap {A B} (f : A -> B) (l : list A) :
  forall k, Subsequence k (map f l) ->
            exists k0, Subsequence k0 l /\ k = map f k0.
Proof.
  induction l as [|x l IH]; intros k H; inversion H; subst.
  - exists []. split; [apply Subsequence_nil | reflexivity].
  - destruct (IH _ H2) as (k0 & Hk & ->). exists k0.
    split; [now apply Subsequence_skip | reflexivity].
  - destruct (IH _ H2) as (k0 & Hk & ->). exists (x :: k0).
    split; [now apply Subsequence_take | reflexivity].
Qed.

Lemma runLoop_subsequence net rows :
  forall st, exists k,
    filteredData (runLoop net st rows) = (filteredData st ++ k)%list /\
    Subsequence k rows.
Proof.
  induction rows as [|row rows IH]; intros st.
  - exists []. split; [now rewrite app_nil_r | apply Subsequence_nil].
  - rewrite runLoop_cons.
    destruct (IH (loopBody net st row)) as (k & E & Hk).
    destruct (loopBody_fields net st row) as (Ed & _ & _).
    rewrite E, Ed.
    destruct (isKept (verdict net (requests st) row)).
    + exists (row :: k). rewrite <- app_assoc.
      split; [reflexivity | now apply Subsequence_take].
    + exists k. rewrite app_nil_r.
      split; [reflexivity | now apply Subsequence_skip].
Qed.

(** X8: whatever the network does, the kept rows are the normalized copies
    of some of the input rows, in the order of the input. *)
Theorem kept_rows_keep_input_order
    (net : Network) (domainColumn : string) (rows : list CSVRow) :
  exists picked,
    Subsequence picked rows /\
    filteredData (runLoop net loopStart (normalizedData domainColumn rows))
    = map (normalizeRow domainColumn) picked.
Proof.
  destruct (runLoop_subsequence net (normalizedData domainColumn rows) loopStart)
    as (k & E & Hk).
  destruct (Subsequence_unmap _ _ _ Hk) as (k0 & Hk0 & ->).
  exists k0. split; [exact Hk0 | exact E].
Qed.

Lemma filter_split_length {A} (f : A -> bool) (l : list A) :
  (length (filter f l) + length (filter (fun x => negb (f x)) l) = length l)%nat.
Proof.
  induction l as [|x l IH]; [reflexivity|].
  cbn [filter]. destruct (f x); simpl; lia.
Qed.

Lemma runLoop_accounting net rows :
  forall st,
    let st' := runLoop net st rows in
    (Z.of_nat (length (requests st')) + filteredRecords st
     + Z.of_nat (length (filteredData st)) + Z.of_nat (length (consoleErrors st))
     = Z.of_nat (length (requests st)) + filteredRecords st'
       + Z.of_nat (length (filteredData st')) + Z.of_nat (length (consoleErrors st')))%Z.
Proof.
  induction rows as [|row rows IH]; intros st; cbn zeta; [reflexivity|].
  rewrite runLoop_cons.
  specialize (IH (loopBody net st row)). cbn zeta in IH.
  destruct (loopBody_fields net st row) as (Ed & Er & Ee).
  pose proof (loopBody_requests net st row) as Eq.
  rewrite Ed, Er, Ee, Eq in IH. rewrite !List.length_app in IH.
  unfold verdict in IH.
  destruct (lookedUp row); cbn [length isKept isExcluded isFailed] in IH;
    [|lia].
  destruct (net (requests st) (lookupURL row)) as [|resp];
    cbn [length isKept isExcluded isFailed] in IH; [lia|].
  destruct (hasOutlook (mxRecords resp));
    cbn [length isKept isExcluded isFailed] in IH; lia.
Qed.

(** X9: every request ends in exactly one of three ways: the row is counted
    as removed, the row is kept, or the failure is logged; and every input
    row is either looked up or skipped.  So the rows that silently vanish
    (neither kept nor counted) are the skipped rows and the rows whose
    lookup failed. *)
Theorem rows_accounted_for (net : Network) (rows : list CSVRow) :
  let out := runLoop net loopStart rows in
  (Z.of_nat (length (requests out))
   = filteredRecords out + Z.of_nat (length (filteredData out))
     + Z.of_nat (length (consoleErrors out)))%Z /\
  (length rows
   = length (requests out) + length (filter (fun r => negb (lookedUp r)) rows))%nat.
Proof.
  intros out. split.
  - pose proof (runLoop_accounting net rows loopStart) as H. cbn zeta in H.
    fold out in H. cbn in H. lia.
  - unfold out. rewrite runLoop_requests. cbn [requests loopStart app].
    rewrite length_map. symmetry. apply filter_split_length.
Qed.

Lemma stateless_verdict net history row :
  stateless net -> verdict net history row = verdict net [] row.
Proof. intros H. unfold verdict. now rewrite (H history []). Qed.

Lemma stateless_runLoop net rows :
  stateless net ->
  forall st,
    let v := verdict net [] in
    let st' := runLoop net st rows in
    filteredData st'
    = (filteredData st ++ filter (fun r => isKept (v r)) rows)%list /\
    filteredRecords st'
    = (filteredRecords st
       + Z.of_nat (length (filter (fun r => isExcluded (v r)) rows)))%Z /\
    consoleErrors st'
    = (consoleErrors st ++ map domainOf (filter (fun r => isFailed (v r)) rows))%list.
Proof.
  intros Hn. induction rows as [|row rows IH]; intros st; cbn zeta.
  - cbn. now rewrite !app_nil_r, Z.add_0_r.
  - rewrite runLoop_cons.
    destruct (IH (loopBody net st row)) as (Ed & Er & Ee).
    destruct (loopBody_fields net st row) as (Ed1 & Er1 & Ee1).
    rewrite (stateless_verdict _ _ _ Hn) in Ed1, Er1, Ee1.
    rewrite Ed, Er, Ee, Ed1, Er1, Ee1. cbn [filter].
    destruct (verdict net [] row); cbn [isKept isExcluded isFailed map length];
      rewrite <- ?app_assoc, ?app_nil_r, ?Z.add_0_r; repeat split; auto; lia.
Qed.

(** X10: when the answer to a URL does not depend on the earlier requests,
    the loop is a filter: the kept rows are exactly the rows whose own
    lookup is answered without an [.outlook] record, the count is the
    number of rows answered with one, and the console holds the domains of
    the rows whose lookup is rejected. *)
Theorem stateless_loop_is_filter (net : Network) (rows : list CSVRow) :
  stateless net ->
  let out := runLoop net loopStart rows in
  filteredData out = filter (fun r => isKept (verdict net [] r)) rows /\
  filteredRecords out
  = Z.of_nat (length (filter (fun r => isExcluded (verdict net [] r)) rows)) /\
  consoleErrors out
  = map domainOf (filter (fun r => isFailed (verdict net [] r)) rows).
Proof.
  intros Hn out.
  destruct (stateless_runLoop net rows Hn loopStart) as (Ed & Er & Ee).
  fold out in Ed, Er, Ee. now rewrite Ed, Er, Ee.
Qed.

Lemma stateless_loop_is_filter_witness :
  filteredData
    (runLoop (fun _ _ => answer []) loopStart
       [[("normalizedDomain", Some "a.io")]; [("normalizedDomain", None)]])
  = filter (fun r => isKept (verdict (fun _ _ => answer []) [] r))
      [[("normalizedDomain", Some "a.io")]; [("normalizedDomain", None)]].
Proof.
  apply (stateless_loop_is_filter (fun _ _ => answer [])).
  intros h1 h2 u. reflexivity.
Defined.

(** X11: with such a network the rows can be processed in two batches: the
    outcome for [rows1 ++ rows2] is the outcome for [rows1] followed by the
    outcome for [rows2]. *)
Theorem stateless_loop_batches (net : Network) (rows1 rows2 : list CSVRow) :
  stateless net ->
  let out := runLoop net loopStart (rows1 ++ rows2) in
  let out1 := runLoop net loopStart rows1 in
  let out2 := runLoop net loopStart rows2 in
  filteredData out = (filteredData out1 ++ filteredData out2)%list /\
  filteredRecords out = (filteredRecords out1 + filteredRecords out2)%Z /\
  consoleErrors out = (consoleErrors out1 ++ consoleErrors out2)%list /\
  requests out = (requests out1 ++ requests out2)%list.
Proof.
  intros Hn out out1 out2.
  destruct (stateless_runLoop net (rows1 ++ rows2) Hn loopStart) as (Ed & Er & Ee).
  destruct (stateless_runLoop net rows1 Hn loopStart) as (Ed1 & Er1 & Ee1).
  destruct (stateless_runLoop net rows2 Hn loopStart) as (Ed2 & Er2 & Ee2).
  fold out in Ed, Er, Ee. fold out1 in Ed1, Er1, Ee1. fold out2 in Ed2, Er2, Ee2.
  rewrite Ed, Er, Ee, Ed1, Er1, Ee1, Ed2, Er2, Ee2.
  unfold out, out1, out2. rewrite !runLoop_requests.
  rewrite !filter_app, !map_app, !List.length_app. cbn.
  repeat split; auto. lia.
Qed.

Lemma stateless_loop_batches_witness :
  filteredData
    (runLoop (fun _ _ => answer []) loopStart
       ([[("normalizedDomain", Some "a.io")]] ++ [[("normalizedDomain", Some "b.io")]]))
  = (filteredData
       (runLoop (fun _ _ => answer []) loopStart [[("normalizedDomain", Some "a.io")]])
     ++ filteredData
          (runLoop (fun _ _ => answer []) loopStart [[("normalizedDomain", Some "b.io")]]))%list.
Proof.
  apply (stateless_loop_batches (fun _ _ => answer [])).
  intros h1 h2 u. reflexivity.
Defined.

(** ** What the kept rows carry *)

Lemma get_set_other (o : Obj.t) k v k' :
  k' <> k -> Obj.get (Obj.set o k v) k' = Obj.get o k'.
Proof.
  intros Hk. induction o as [|[k0 v0] o IH]; simpl.
  - destruct (String.eqb_spec k k'); [congruence | reflexivity].
  - destruct (String.eqb_spec k0 k) as [->|Hn]; simpl.
    + destruct (String.eqb_spec k k'); [congruence | reflexivity].
    + destruct (String.eqb k0 k'); [reflexivity | exact IH].
Qed.

Lemma runLoop_kept_lookedUp net rows :
  forall st r,
    In r (filteredData (runLoop net st rows)) ->
    In r (filteredData st) \/ (In r rows /\ lookedUp r = true).
Proof.
  induction rows as [|row rows IH]; intros st r H; [now left|].
  rewrite runLoop_cons in H.
  destruct (IH _ _ H) as [H'|[H' Hl]]; [|right; split; [now right | exact Hl]].
  destruct (loopBody_fields net st row) as (Ed & _ & _). rewrite Ed in H'.
  apply in_app_or in H'. destruct H' as [H'|H']; [now left|].
  unfold verdict in H'. destruct (lookedUp row) eqn:Hl; [|destruct H'].
  destruct (isKept _); [|destruct H'].
  destruct H' as [<-|[]]. right. split; [now left | exact Hl].
Qed.

Lemma lookedUp_normalizeRow col row :
  lookedUp (normalizeRow col row) = true ->
  exists nd, normalizeDomain (Obj.get row col) = Some nd /\ nd <> "".
Proof.
  unfold lookedUp. rewrite normalizeRow_get.
  destruct (normalizeDomain (Obj.get row col)) as [[|c d]|]; try discriminate.
  intros _. exists (String c d). split; [reflexivity | discriminate].
Qed.

(** X12: every kept row is an input row to which the property
    [normalizedDomain] was added: its other properties are those of the
    input row, and its normalized domain is the normal form of the domain
    column, which is not empty, in lower case and without a slash. *)
Theorem kept_row_is_input_row_with_domain
    (net : Network) (domainColumn : string) (rows : list CSVRow) (r : CSVRow) :
  In r (filteredData (runLoop net loopStart (normalizedData domainColumn rows))) ->
  exists row nd,
    In row rows /\
    r = normalizeRow domainColumn row /\
    Obj.get r "normalizedDomain" = Some nd /\
    normalizeDomain (Obj.get row domainColumn) = Some nd /\
    nd <> "" /\ JS.toLowerCase nd = nd /\ JS.includes "/" nd = false /\
    forall k, k <> "normalizedDomain" -> Obj.get r k = Obj.get row k.
Proof.
  intros H. apply runLoop_kept_lookedUp in H. destruct H as [[]|[H Hl]].
  unfold normalizedData in H. apply in_map_iff in H.
  destruct H as (row & <- & Hrow).
  destruct (lookedUp_normalizeRow _ _ Hl) as (nd & End & Hne).
  destruct (normalizeDomain_output _ _ End) as [Hlow Hs].
  exists row, nd. repeat split; auto.
  - now rewrite normalizeRow_get.
  - intros k Hk. unfold normalizeRow. now apply get_set_other.
Qed.

Lemma kept_row_is_input_row_with_domain_witness :
  exists row nd,
    In row [[("domain", Some "HTTP://A.io/x"); ("company", Some "A")]] /\
    normalizeRow "domain" [("domain", Some "HTTP://A.io/x"); ("company", Some "A")]
    = normalizeRow "domain" row /\
    Obj.get (normalizeRow "domain"
               [("domain", Some "HTTP://A.io/x"); ("company", Some "A")])
      "normalizedDomain" = Some nd /\
    normalizeDomain (Obj.get row "domain") = Some nd /\
    nd <> "" /\ JS.toLowerCase nd = nd /\ JS.includes "/" nd = false /\
    forall k, k <> "normalizedDomain" ->
      Obj.get (normalizeRow "domain"
                 [("domain", Some "HTTP://A.io/x"); ("company", Some "A")]) k
      = Obj.get row k.
Proof.
  apply (kept_row_is_input_row_with_domain (fun _ _ => answer []) "domain"
           [[("domain", Some "HTTP://A.io/x"); ("company", Some "A")]]).
  left. reflexivity.
Defined.

(** ** When the network is down *)

Lemma runLoop_all_rejected net rows :
  (forall history url, net history url = Rejected) ->
  forall st,
    filteredData (runLoop net st rows) = filteredData st /\
    filteredRecords (runLoop net st rows) = filteredRecords st.
Proof.
  intros Hn. induction rows as [|row rows IH]; intros st; [now split|].
  rewrite runLoop_cons. destruct (IH (loopBody net st row)) as [Ed Er].
  rewrite Ed, Er. destruct (loopBody_fields net st row) as (Ed1 & Er1 & _).
  rewrite Ed1, Er1. unfold verdict. rewrite Hn.
  destruct (lookedUp row); cbn; rewrite app_nil_r, Z.add_0_r; auto.
Qed.

(** X13: when a domain column is found and every request is rejected, the
    run ends as a success without any row: one request was sent for each
    row with a non-empty normalized domain, yet no error is shown, the kept
    rows are empty, the count is zero, the confetti is on, the message about
    saved credits is not shown, and the download is offered and saves an
    empty file. *)
Theorem network_down_gives_empty_success
    (V : Variant) (net : Network) (results : Papa.ParseResult) (st : State)
    (domainColumn : string) :
  (forall history url, net history url = Rejected) ->
  findDomainColumn V (firstRowKeys (Papa.data results)) = Some domainColumn ->
  domainColumn <> "" ->
  let st' := fst (complete V net results st) in
  snd (complete V net results st)
  = map lookupURL
      (filter lookedUp (normalizedData domainColumn (Papa.data results))) /\
  error st' = None /\
  processedData st' = Some [] /\
  filteredCount st' = 0%Z /\
  showConfetti st' = true /\
  showsSaved st' = false /\
  showsDownload st' = true /\
  downloadCSV st' = Some [].
Proof.
  intros Hn Hfind Hne. cbn zeta. unfold complete. rewrite Hfind.
  destruct domainColumn as [|c d]; [congruence|].
  destruct (runLoop_all_rejected net
              (normalizedData (String c d) (Papa.data results)) Hn loopStart)
    as [Ed Er].
  unfold showsSaved, showsDownload, downloadCSV. cbn [fst snd].
  cbn [processedData loading error filteredCount showConfetti].
  rewrite Ed, Er, runLoop_requests. cbn. repeat split.
Qed.

Lemma network_down_gives_empty_success_witness :
  snd (complete variant2 (fun _ _ => Rejected)
         {| Papa.data := [[("domain", Some "a.io")]; [("domain", Some "")]];
            Papa.meta_fields := ["domain"] |} idle)
  = [resolveURL "a.io"] /\
  downloadCSV
    (fst (complete variant2 (fun _ _ => Rejected)
            {| Papa.data := [[("domain", Some "a.io")]; [("domain", Some "")]];
               Papa.meta_fields := ["domain"] |} idle)) = Some [].
Proof.
  pose proof (network_down_gives_empty_success variant2 (fun _ _ => Rejected)
                {| Papa.data := [[("domain", Some "a.io")]; [("domain", Some "")]];
                   Papa.meta_fields := ["domain"] |} idle "domain"
                (fun _ _ => eq_refl) eq_refl) as H.
  split; apply H; discriminate.
Defined.

(** ** The lines of the exported file *)





(** ** [processCSV] and [handleFileUpload] *)

Lemma complete_cases V net results st :
  complete V net results st = (aborted V st, []) \/
  exists domainColumn,
    findDomainColumn V (firstRowKeys (Papa.data results)) = Some domainColumn /\
    domainColumn <> "" /\
    let out := runLoop net loopStart
                 (normalizedData domainColumn (Papa.data results)) in
    complete V net results st =
    ({| processedData := Some (filteredData out);
        loading := false;
        error := None;
        filteredCount := filteredRecords out;
        showConfetti := true |}, requests out).
Proof.
  unfold complete.
  destruct (findDomainColumn V (firstRowKeys (Papa.data results)))
    as [[|c d]|]; [now left | | now left].
  right. exists (String c d). repeat split. discriminate.
Qed.

(** A run with a file either ends without an error, or sent nothing and
    left the data and the count it found. *)
Lemma processCSV_after_error V parse net c f :
  file c = Some f ->
  let run := processCSV V parse net c in
  error (cells (after run)) = None \/
  (sent run = [] /\
   processedData (cells (after run)) = processedData (cells c) /\
   filteredCount (cells (after run)) = filteredCount (cells c)).
Proof.
  intros Hf. cbn zeta. unfold processCSV. rewrite Hf.
  destruct (parse f) as [results| |]; cbn [after sent cells];
    [|right; repeat split|right; repeat split].
  set (st := {| processedData := _ |}).
  destruct (complete_cases V net results st) as [E|(col & _ & _ & E)];
    cbn zeta in E; rewrite E; cbn [fst snd].
  - right. repeat split.
  - left. reflexivity.
Qed.

(** X15: a call of [processCSV] with a file chosen and no run in flight,
    which runs to its end (the parser and every request settle, nothing else
    happens meanwhile), shows no alert and hands the button back, in one of
    two ways.  Either the parser completed and a column was found: no error,
    the data are the rows kept by this run, the count is the count of this
    run, the requests are those of this run, and the download is offered.
    Or an error message is set (the parser failed or threw, or no column
    was found): no request was sent and the data, the count and the
    confetti of the previous state are left in place. *)
Theorem processCSV_outcomes
    (V : Variant) (parse : Parser) (net : Network) (c : Component) (f : File) :
  file c = Some f ->
  loading (cells c) = false ->
  let run := processCSV V parse net c in
  let st' := cells (after run) in
  file (after run) = Some f /\
  alerts run = [] /\
  processDisabled (after run) = false /\
  ((exists results domainColumn,
      parse f = Completes results /\
      findDomainColumn V (firstRowKeys (Papa.data results)) = Some domainColumn /\
      domainColumn <> "" /\
      let out := runLoop net loopStart
                   (normalizedData domainColumn (Papa.data results)) in
      error st' = None /\
      processedData st' = Some (filteredData out) /\
      filteredCount st' = filteredRecords out /\
      sent run = requests out /\
      showConfetti st' = true /\
      showsDownload st' = true)
   \/
   ((error st' = Some "Error parsing the CSV file." /\ parse f = Fails \/
     error st' = Some "An error occurred while processing the file."
     /\ parse f = Throws \/
     error st' = Some (noColumnMessage V) /\
     exists results, parse f = Completes results /\
       forall col, findDomainColumn V (firstRowKeys (Papa.data results)) = Some col ->
                   col = "") /\
    sent run = [] /\
    processedData st' = processedData (cells c) /\
    filteredCount st' = filteredCount (cells c) /\
    showConfetti st' = showConfetti (cells c))).
Proof.
  intros Hf _. cbn zeta. unfold processCSV, processDisabled. rewrite Hf.
  destruct (parse f) as [results| |] eqn:Eparse; cbn [after alerts sent file cells].
  - set (st := {| processedData := processedData (cells c); loading := true;
                  error := None; filteredCount := filteredCount (cells c);
                  showConfetti := showConfetti (cells c) |}).
    destruct (complete_cases V net results st) as [E|(col & Hfind & Hne & E)];
      cbn zeta in E; rewrite E; cbn [fst snd].
    + repeat split; auto. right.
      split; [right; right; split; [reflexivity|] | repeat split].
      exists results. split; [reflexivity|].
      intros col Hcol. unfold complete in E. rewrite Hcol in E.
      destruct col as [|a col]; [reflexivity | discriminate E].
    + repeat split; auto. left. exists results, col. repeat split; auto.
  - cbn. repeat split; auto. right.
    split; [left; split; reflexivity | repeat split].
  - cbn. repeat split; auto. right.
    split; [right; left; split; reflexivity | repeat split].
Qed.

Lemma processCSV_outcomes_witness :
  processDisabled
    (after (processCSV variant2 (fun _ => Fails) (fun _ _ => Rejected)
              {| file := Some {| fileName := "a.csv"; fileText := "x" |};
                 cells := idle |})) = false.
Proof.
  apply (processCSV_outcomes variant2 (fun _ => Fails) (fun _ _ => Rejected)
           {| file := Some {| fileName := "a.csv"; fileText := "x" |};
              cells := idle |}
           {| fileName := "a.csv"; fileText := "x" |}).
  - reflexivity.
  - reflexivity.
Defined.

(** X16: when no run is in flight, choosing a file puts the component in
    the state of a fresh page holding that file, so a run started then and
    left to finish does not depend on what was there before; and if that
    run ends with an error, nothing of the earlier file is left: no data to
    download, a count of zero, and no message about saved credits. *)
Theorem upload_forgets_previous_run
    (V : Variant) (parse : Parser) (net : Network) (f : File) (c : Component) :
  loading (cells c) = false ->
  let fresh := {| file := Some f; cells := idle |} in
  let run := processCSV V parse net (handleFileUpload (Some f) c) in
  let st' := cells (after run) in
  handleFileUpload (Some f) c = fresh /\
  run = processCSV V parse net fresh /\
  (error st' <> None ->
   sent run = [] /\
   processedData st' = None /\
   downloadCSV st' = None /\
   showsDownload st' = false /\
   filteredCount st' = 0%Z /\
   showsSaved st' = false).
Proof.
  intros Hl. cbn zeta.
  assert (E : handleFileUpload (Some f) c = {| file := Some f; cells := idle |})
    by (unfold handleFileUpload, afterUpload, idle; now rewrite Hl).
  rewrite E. split; [reflexivity|]. split; [reflexivity|].
  pose proof (processCSV_after_error V parse net
                {| file := Some f; cells := idle |} f eq_refl) as H.
  cbn zeta in H.
  remember (processCSV V parse net {| file := Some f; cells := idle |}) as run
    eqn:Erun.
  clear Erun. destruct H as [He|(Hs & Hp & Hc)].
  - intros Hn. now elim Hn.
  - intros _. unfold downloadCSV, showsDownload, showsSaved.
    rewrite Hp, Hc, Hs. cbn. rewrite andb_false_r. repeat split.
Qed.

Lemma upload_forgets_previous_run_witness :
  handleFileUpload (Some {| fileName := "b.csv"; fileText := "x" |})
    {| file := Some {| fileName := "a.csv"; fileText := "y" |};
       cells := {| processedData := Some [[("domain", Some "a.io")]];
                   loading := false;
                   error := None;
                   filteredCount := 3%Z;
                   showConfetti := true |} |}
  = {| file := Some {| fileName := "b.csv"; fileText := "x" |}; cells := idle |}.
Proof.
  apply (upload_forgets_previous_run variant2 (fun _ => Fails) (fun _ _ => Rejected)).
  reflexivity.
Defined.

(** X17: [processCSV] sends a request only when a file is chosen, the
    parser completes, a domain column is found and at least one row has a
    non-empty normalized domain; in particular none without a file, where
    it only alerts and changes nothing. *)
Theorem processCSV_requests_only_when
    (V : Variant) (parse : Parser) (net : Network) (c : Component) :
  (file c = None ->
   processCSV V parse net c =
   {| after := c; alerts := ["Please upload a file first!"]; sent := [] |}) /\
  (sent (processCSV V parse net c) <> [] ->
   exists f results domainColumn row,
     file c = Some f /\
     parse f = Completes results /\
     findDomainColumn V (firstRowKeys (Papa.data results)) = Some domainColumn /\
     In row (Papa.data results) /\
     lookedUp (normalizeRow domainColumn row) = true).
Proof.
  unfold processCSV. split.
  - now intros ->.
  - destruct (file c) as [f|]; [|intros H; now elim H].
    destruct (parse f) as [results| |] eqn:Eparse; cbn [sent];
      [|intros H; now elim H|intros H; now elim H].
    set (st := {| processedData := _ |}).
    destruct (complete_cases V net results st) as [E|(col & Hfind & _ & E)];
      cbn zeta in E; rewrite E; cbn [snd]; [intros H; now elim H|].
    rewrite runLoop_requests. cbn [requests loopStart app]. intros H.
    destruct (filter lookedUp (normalizedData col (Papa.data results)))
      as [|r rs] eqn:Ef; [now elim H|].
    assert (Hr : In r (filter lookedUp (normalizedData col (Papa.data results))))
      by (rewrite Ef; now left).
    apply filter_In in Hr. destruct Hr as [Hr Hl].
    unfold normalizedData in Hr. apply in_map_iff in Hr.
    destruct Hr as (row & <- & Hrow).
    now exists f, results, col, row.
Qed.

Lemma processCSV_requests_only_when_witness :
  exists f results domainColumn row,
    Some {| fileName := "a.csv"; fileText := "domain,a.io" |} = Some f /\
    Completes {| Papa.data := [[("domain", Some "a.io")]];
                 Papa.meta_fields := ["domain"] |} = Completes results /\
    findDomainColumn variant1 (firstRowKeys (Papa.data results)) = Some domainColumn /\
    In row (Papa.data results) /\
    lookedUp (normalizeRow domainColumn row) = true.
Proof.
  apply (proj2 (processCSV_requests_only_when variant1
           (fun _ => Completes {| Papa.data := [[("domain", Some "a.io")]];
                                  Papa.meta_fields := ["domain"] |})
           (fun _ _ => answer [])
           {| file := Some {| fileName := "a.csv"; fileText := "domain,a.io" |};
              cells := idle |})).
  discriminate.
Defined.
